(** * go-todo-cli: the todo service, its PostgreSQL gateway and its commands

    A shallow embedding of
      - internal/domain      (Todo, CreateTodoRequest, UpdateTodoRequest),
      - internal/repository  (TodoRepository: FindAll, FindByID, Create,
                              Update, Delete),
      - internal/service     (todoServiceImpl),
      - internal/cli         (the list and update commands),
    together with the part of their collaborators the code leans on: the
    five SQL statements run on the todos table of
    migrations/001_init_todos.sql, the pgx calls that carry them
    (Query, QueryRow.Scan, Exec), the wall clock, the UUID generator and
    the flag sets of the command framework.

    The todos table is a finite map from the primary key to the other
    five columns.  Column-level checks other than the primary key
    (VARCHAR width, text encoding) are outside the model, and instants
    are integers at the resolution the column stores. *)

From Stdlib Require Import ZArith.
From stdpp Require Import gmap strings list fin_maps sorting.

Local Open Scope Z_scope.
Local Open Scope string_scope.

(** ** internal/domain *)

(** [uuid.UUID] is a [16]byte array; it is read here as the number those
    sixteen bytes spell. *)
Definition UUID : Type := N.
Definition Time : Type := Z.

(** The service source names the two instants CreatedDate and UpdatedDate,
    the repository source CreatedAt and UpdatedAt; they are the same two
    fields of the one struct. *)
Record Todo : Type := mkTodo {
  ID : UUID;
  Title : string;
  Description : string;
  Completed : bool;
  CreatedAt : Time;
  UpdatedAt : Time
}.

Record CreateTodoRequest : Type := mkCreateTodoRequest {
  create_Title : string;
  create_Description : string
}.

Record UpdateTodoRequest : Type := mkUpdateTodoRequest {
  update_ID : UUID;
  update_Title : string;
  update_Description : string
}.

(** Assignments to one field of a Todo. *)
Definition set_Title (todo : Todo) (v : string) : Todo :=
  {| ID := ID todo; Title := v; Description := Description todo;
     Completed := Completed todo; CreatedAt := CreatedAt todo;
     UpdatedAt := UpdatedAt todo |}.

Definition set_Description (todo : Todo) (v : string) : Todo :=
  {| ID := ID todo; Title := Title todo; Description := v;
     Completed := Completed todo; CreatedAt := CreatedAt todo;
     UpdatedAt := UpdatedAt todo |}.

Definition set_Completed (todo : Todo) (v : bool) : Todo :=
  {| ID := ID todo; Title := Title todo; Description := Description todo;
     Completed := v; CreatedAt := CreatedAt todo;
     UpdatedAt := UpdatedAt todo |}.

Definition set_UpdatedAt (todo : Todo) (v : Time) : Todo :=
  {| ID := ID todo; Title := Title todo; Description := Description todo;
     Completed := Completed todo; CreatedAt := CreatedAt todo;
     UpdatedAt := v |}.

(** ** Errors and results *)

Inductive error : Type :=
  | ErrNoRows                         (* pgx.ErrNoRows: no row matches *)
  | ErrUniqueViolation                (* SQLSTATE 23505 on the primary key *)
  | ErrConnClosed                     (* the pool cannot reach the database *)
  | ErrInvalidUUID (s : string)       (* uuid.Parse *)
  | ErrUnknownFlag (name : string)    (* flag on the command line, not defined *)
  | ErrFlagNotDefined (name : string) (* flag looked up, not defined *)
  | ErrFlagType (name : string)       (* flag looked up or set at another type *)
  | ErrArgs (want got : nat).         (* cobra.ExactArgs *)

(** A Go pair [(T, error)]. *)
Inductive result (T : Type) : Type :=
  | Ok (x : T)
  | Err (e : error).
Arguments Ok {T} x.
Arguments Err {T} e.

(** The NotFound of the gateway contract is pgx's ErrNoRows. *)
Definition NotFound : error := ErrNoRows.
Definition Conflict : error := ErrUniqueViolation.

(** ** The todos table and its five statements *)

Record Row : Type := mkRow {
  title : string;
  description : string;
  completed : bool;
  created_at : Time;
  updated_at : Time
}.

Module Sql.

(** One result row of [SELECT id, title, description, completed,
    created_at, updated_at], scanned into a Todo. *)
Definition scan (kv : UUID * Row) : Todo :=
  {| ID := kv.1;
     Title := title kv.2;
     Description := description kv.2;
     Completed := completed kv.2;
     CreatedAt := created_at kv.2;
     UpdatedAt := updated_at kv.2 |}.

(** [ORDER BY created_at DESC]: a row may stand before another when it
    is not older. *)
Definition newest_first (a b : Todo) : Prop := CreatedAt b <= CreatedAt a.

#[global] Instance newest_first_dec : RelDecision newest_first.
Proof. intros a b. unfold newest_first. apply _. Defined.

(** SELECT ... FROM todos ORDER BY created_at DESC *)
Definition select_all (t : gmap UUID Row) : list Todo :=
  merge_sort newest_first (scan <$> map_to_list t).

(** SELECT ... FROM todos WHERE id = $1 *)
Definition select_by_id (t : gmap UUID Row) (id : UUID) : list Todo :=
  match t !! id with
  | Some r => [scan (id, r)]
  | None => []
  end.

(** INSERT INTO todos (id, title, description, completed, created_at,
    updated_at) VALUES ($1, $2, $3, $4, $5, $6): the primary key rejects
    a second row with the same id. *)
Definition insert (t : gmap UUID Row) (a1 : UUID) (a2 a3 : string)
    (a4 : bool) (a5 a6 : Time) : result (gmap UUID Row * N) :=
  match t !! a1 with
  | Some _ => Err ErrUniqueViolation
  | None =>
      Ok (<[a1 := {| title := a2; description := a3; completed := a4;
                     created_at := a5; updated_at := a6 |}]> t, 1%N)
  end.

(** UPDATE todos SET title = $1, description = $2, updated_at = $3
    WHERE id = $4.  The statement names three columns; completed and
    created_at are not among them.  The second component is the number
    of rows affected. *)
Definition update (t : gmap UUID Row) (a1 a2 : string) (a3 : Time)
    (a4 : UUID) : gmap UUID Row * N :=
  match t !! a4 with
  | Some r =>
      (<[a4 := {| title := a1; description := a2;
                  completed := completed r;
                  created_at := created_at r;
                  updated_at := a3 |}]> t, 1%N)
  | None => (t, 0%N)
  end.

(** DELETE FROM todos WHERE id = $1 *)
Definition delete (t : gmap UUID Row) (a1 : UUID) : gmap UUID Row * N :=
  match t !! a1 with
  | Some _ => (base.delete a1 t, 1%N)
  | None => (t, 0%N)
  end.

End Sql.

(** ** The connection pool (pgxpool.Pool) *)

Record Pool : Type := mkPool {
  alive : bool;
  todos : gmap UUID Row
}.

Module Pgx.

(** The command tag of [Exec]: the number of rows affected. *)
Definition CommandTag : Type := N.

(** [db.Query(ctx, query)] for the FindAll statement: the rows, or the
    error of a pool that cannot reach the database. *)
Definition Query_all (p : Pool) : result (list Todo) :=
  if alive p then Ok (Sql.select_all (todos p)) else Err ErrConnClosed.

(** [db.QueryRow(ctx, query, id).Scan(...)]: the first row, and
    [ErrNoRows] when the result set is empty. *)
Definition QueryRow_Scan (p : Pool) (id : UUID) : result Todo :=
  if alive p then
    match Sql.select_by_id (todos p) id with
    | t :: _ => Ok t
    | [] => Err ErrNoRows
    end
  else Err ErrConnClosed.

(** [db.Exec(ctx, query, args...)] returns the command tag and an error.
    A statement that ran and matched no row is not an error: the tag
    reports zero rows and the error is nil. *)
Definition Exec_insert (p : Pool) (a1 : UUID) (a2 a3 : string)
    (a4 : bool) (a5 a6 : Time) : Pool * CommandTag * option error :=
  if alive p then
    match Sql.insert (todos p) a1 a2 a3 a4 a5 a6 with
    | Ok (t', n) => ({| alive := alive p; todos := t' |}, n, None)
    | Err e => (p, 0%N, Some e)
    end
  else (p, 0%N, Some ErrConnClosed).

Definition Exec_update (p : Pool) (a1 a2 : string) (a3 : Time)
    (a4 : UUID) : Pool * CommandTag * option error :=
  if alive p then
    let '(t', n) := Sql.update (todos p) a1 a2 a3 a4 in
    ({| alive := alive p; todos := t' |}, n, None)
  else (p, 0%N, Some ErrConnClosed).

Definition Exec_delete (p : Pool) (a1 : UUID)
    : Pool * CommandTag * option error :=
  if alive p then
    let '(t', n) := Sql.delete (todos p) a1 in
    ({| alive := alive p; todos := t' |}, n, None)
  else (p, 0%N, Some ErrConnClosed).

End Pgx.

(** ** internal/repository: TodoRepository *)

Module TodoRepository.

(** The loop over [rows.Next()] appends every scanned row in the order
    the query yields them; with no row the slice stays nil, which is the
    empty sequence, and the error is nil. *)
Definition FindAll (r : Pool) : result (list Todo) :=
  match Pgx.Query_all r with
  | Err e => Err e
  | Ok rows => Ok (foldl (fun todos todo => (todos ++ [todo])%list) [] rows)
  end.

Definition FindByID (r : Pool) (id : UUID) : result Todo :=
  match Pgx.QueryRow_Scan r id with
  | Err e => Err e
  | Ok todo => Ok todo
  end.

(** [_, err := r.db.Exec(...); return err]: the command tag is dropped
    in all three writers. *)
Definition Create (r : Pool) (todo : Todo) : Pool * option error :=
  let '(r', _, err) :=
    Pgx.Exec_insert r (ID todo) (Title todo) (Description todo)
      (Completed todo) (CreatedAt todo) (UpdatedAt todo) in
  (r', err).

Definition Update (r : Pool) (todo : Todo) : Pool * option error :=
  let '(r', _, err) :=
    Pgx.Exec_update r (Title todo) (Description todo) (UpdatedAt todo)
      (ID todo) in
  (r', err).

Definition Delete (r : Pool) (id : UUID) : Pool * option error :=
  let '(r', _, err) := Pgx.Exec_delete r id in
  (r', err).

End TodoRepository.

(** ** The world a command runs in *)

(** Besides the database, the service reads the wall clock ([time.Now])
    and draws identifiers ([uuid.New]).  Both are given by the sequence of
    values they will return and the number of values taken so far. *)
Record World : Type := mkWorld {
  db : Pool;
  wall : nat -> Time;
  reads : nat;
  rand : nat -> UUID;
  draws : nat
}.

Definition set_db (w : World) (p : Pool) : World :=
  {| db := p; wall := wall w; reads := reads w;
     rand := rand w; draws := draws w |}.

Definition time_Now (w : World) : Time * World :=
  (wall w (reads w),
   {| db := db w; wall := wall w; reads := S (reads w);
      rand := rand w; draws := draws w |}).

Definition uuid_New (w : World) : UUID * World :=
  (rand w (draws w),
   {| db := db w; wall := wall w; reads := reads w;
      rand := rand w; draws := S (draws w) |}).

(** ** internal/service: todoServiceImpl *)

Module todoServiceImpl.

Definition FindAllTodos (s : World) : World * result (list Todo) :=
  (s, TodoRepository.FindAll (db s)).

Definition FindTodoByID (s : World) (id : UUID) : World * result Todo :=
  (s, TodoRepository.FindByID (db s) id).

(** The composite literal evaluates its operands in source order:
    [uuid.New()], then [time.Now()] for the creation instant, then a
    second [time.Now()] for the update instant. *)
Definition CreateTodo (s : World) (request : CreateTodoRequest)
    : World * result Todo :=
  let '(id, s) := uuid_New s in
  let '(created, s) := time_Now s in
  let '(updated, s) := time_Now s in
  let todo :=
    {| ID := id;
       Title := create_Title request;
       Description := create_Description request;
       Completed := false;
       CreatedAt := created;
       UpdatedAt := updated |} in
  let '(r, err) := TodoRepository.Create (db s) todo in
  match err with
  | Some e => (set_db s r, Err e)
  | None => (set_db s r, Ok todo)
  end.

Definition UpdateTodo (s : World) (request : UpdateTodoRequest)
    : World * result Todo :=
  match TodoRepository.FindByID (db s) (update_ID request) with
  | Err e => (s, Err e)
  | Ok todo =>
      let todo := set_Title todo (update_Title request) in
      let todo := set_Description todo (update_Description request) in
      let '(now, s) := time_Now s in
      let todo := set_UpdatedAt todo now in
      let '(r, err) := TodoRepository.Update (db s) todo in
      match err with
      | Some e => (set_db s r, Err e)
      | None => (set_db s r, Ok todo)
      end
  end.

Definition DeleteTodo (s : World) (id : UUID) : World * option error :=
  let '(r, err) := TodoRepository.Delete (db s) id in
  (set_db s r, err).

(** [todo.Completed = !todo.Completed] changes the loaded struct; the
    struct is then handed to the gateway's Update and returned. *)
Definition ToggleTodo (s : World) (id : UUID) : World * result Todo :=
  match TodoRepository.FindByID (db s) id with
  | Err e => (s, Err e)
  | Ok todo =>
      let todo := set_Completed todo (negb (Completed todo)) in
      let '(r, err) := TodoRepository.Update (db s) todo in
      match err with
      | Some e => (set_db s r, Err e)
      | None => (set_db s r, Ok todo)
      end
  end.

End todoServiceImpl.

(** ** The command framework: flag sets *)

Module Cobra.

Inductive Value : Type :=
  | BoolValue (b : bool)
  | StringValue (s : string).

(** The flags a command has defined, each with its current value (the
    default until the command line sets it). *)
Definition empty_flags : gmap string Value := ∅.

(** [Flags().StringP(name, shorthand, value, usage)] *)
Definition StringP (f : gmap string Value) (name value : string)
    : gmap string Value :=
  <[name := StringValue value]> f.

(** [Flags().GetBool(name)]: the zero value and an error for a flag that
    was never defined or has another type. *)
Definition GetBool (f : gmap string Value) (name : string)
    : bool * option error :=
  match f !! name with
  | Some (BoolValue b) => (b, None)
  | Some (StringValue _) => (false, Some (ErrFlagType name))
  | None => (false, Some (ErrFlagNotDefined name))
  end.

Definition GetString (f : gmap string Value) (name : string)
    : string * option error :=
  match f !! name with
  | Some (StringValue s) => (s, None)
  | Some (BoolValue _) => ("", Some (ErrFlagType name))
  | None => ("", Some (ErrFlagNotDefined name))
  end.

(** strconv.ParseBool *)
Definition ParseBool (s : string) : option bool :=
  if bool_decide (s ∈ ["1"; "t"; "T"; "TRUE"; "true"; "True"]) then Some true
  else if bool_decide (s ∈ ["0"; "f"; "F"; "FALSE"; "false"; "False"])
  then Some false
  else None.

(** One [--name value] of the command line (a bare [--name] of a boolean
    flag carries "true").  A name the command has not defined is
    rejected. *)
Definition Set_ (f : gmap string Value) (name value : string)
    : result (gmap string Value) :=
  match f !! name with
  | None => Err (ErrUnknownFlag name)
  | Some (StringValue _) => Ok (<[name := StringValue value]> f)
  | Some (BoolValue _) =>
      match ParseBool value with
      | Some b => Ok (<[name := BoolValue b]> f)
      | None => Err (ErrFlagType name)
      end
  end.

Fixpoint ParseFlags (f : gmap string Value) (given : list (string * string))
    : result (gmap string Value) :=
  match given with
  | [] => Ok f
  | (name, value) :: rest =>
      match Set_ f name value with
      | Err e => Err e
      | Ok f' => ParseFlags f' rest
      end
  end.

(** [cobra.ExactArgs(n)] *)
Definition ExactArgs (n : nat) (args : list string) : option error :=
  if decide (length args = n) then None else Some (ErrArgs n (length args)).

End Cobra.

(** ** internal/cli *)

(** What a command writes to the terminal.  The two renderers are recorded
    with the value they are given. *)
Inductive Event : Type :=
  | Print (text : string)
  | PrintErr (text : string) (e : error)
  | printTodoTable (todos : list Todo)
  | printTodo (todo : Todo)
  | Exit (code : Z).

Record Command : Type := mkCommand {
  Use : string;
  Flags : gmap string Cobra.Value;
  Args : list string -> option error;
  Run : gmap string Cobra.Value -> list string -> World -> World * list Event
}.

(** The loop of the list command over the fetched todos: an item that
    passes both tests is appended to [filteredTodos], and the table of
    what has been kept so far is printed right there, inside the loop.
    The result is the final [filteredTodos] and the tables printed. *)
Fixpoint list_loop (filterCompleted filterPending : bool)
    (todos filteredTodos : list Todo) : list Todo * list Event :=
  match todos with
  | [] => (filteredTodos, [])
  | todo :: rest =>
      if filterCompleted && negb (Completed todo) then
        list_loop filterCompleted filterPending rest filteredTodos
      else if filterPending && Completed todo then
        list_loop filterCompleted filterPending rest filteredTodos
      else
        let filteredTodos := (filteredTodos ++ [todo])%list in
        let '(kept, out) :=
          list_loop filterCompleted filterPending rest filteredTodos in
        (kept, printTodoTable filteredTodos :: out)
  end.

(** The two flag reads that open the Run function of the list command;
    the error of either read is dropped. *)
Definition list_filters (flags : gmap string Cobra.Value) : bool * bool :=
  let '(filterCompleted, _) := Cobra.GetBool flags "completed" in
  let '(filterPending, _) := Cobra.GetBool flags "pending" in
  (filterCompleted, filterPending).

(** [findAllCommand] returns the command literal as it is: it has Use,
    Short and Run, and defines no flag and no argument check. *)
Definition findAllCommand : Command :=
  {| Use := "list";
     Flags := Cobra.empty_flags;
     Args := fun _ => None;
     Run := fun flags args w =>
       let '(filterCompleted, filterPending) := list_filters flags in
       let '(w, r) := todoServiceImpl.FindAllTodos w in
       match r with
       | Err err => (w, [PrintErr "Error getting TODOs" err])
       | Ok todos =>
           let empty :=
             if decide (length todos = 0%nat)
             then [Print "No TODOs found"] else [] in
           let '(_, out) :=
             list_loop filterCompleted filterPending todos [] in
           (w, (empty ++ out)%list)
       end |}.

Section Commands.

(** [uuid.Parse] of the identifier library. *)
Variable uuid_Parse : string -> result UUID.

(** The request the update command builds from its two flags. *)
Definition update_request (flags : gmap string Cobra.Value) (id : UUID)
    : UpdateTodoRequest :=
  let '(title, _) := Cobra.GetString flags "title" in
  let '(description, _) := Cobra.GetString flags "description" in
  {| update_ID := id;
     update_Title := title;
     update_Description := description |}.

Definition updateCommand : Command :=
  {| Use := "update [id]";
     Flags :=
       Cobra.StringP (Cobra.StringP Cobra.empty_flags "title" "")
         "description" "";
     Args := Cobra.ExactArgs 1;
     Run := fun flags args w =>
       match uuid_Parse (default "" (args !! 0%nat)) with
       | Err err => (w, [PrintErr "Error parsing id" err])
       | Ok id =>
           let request := update_request flags id in
           let '(w, r) := todoServiceImpl.UpdateTodo w request in
           match r with
           | Err err => (w, [PrintErr "Error trying to update TOD item" err])
           | Ok todo => (w, [Print "TODO updated successfully!"; printTodo todo])
           end
       end |}.

Definition findByIDCommand : Command :=
  {| Use := "find [id]";
     Flags := Cobra.empty_flags;
     Args := Cobra.ExactArgs 1;
     Run := fun flags args w =>
       match uuid_Parse (default "" (args !! 0%nat)) with
       | Err err => (w, [PrintErr "Error parsing id" err])
       | Ok id =>
           let '(w, r) := todoServiceImpl.FindTodoByID w id in
           match r with
           | Err err => (w, [PrintErr "Error getting TODO" err])
           | Ok todo => (w, [printTodo todo])
           end
       end |}.

Definition deleteCommand : Command :=
  {| Use := "delete [id]";
     Flags := Cobra.empty_flags;
     Args := Cobra.ExactArgs 1;
     Run := fun flags args w =>
       match uuid_Parse (default "" (args !! 0%nat)) with
       | Err err => (w, [PrintErr "Error parsing id" err])
       | Ok id =>
           let '(w, err) := todoServiceImpl.DeleteTodo w id in
           match err with
           | Some err => (w, [PrintErr "Error trying to delete a TODO item" err])
           | None => (w, [Print "Todo deleted successfully!"])
           end
       end |}.

Definition toggleCommand : Command :=
  {| Use := "toggle [id]";
     Flags := Cobra.empty_flags;
     Args := Cobra.ExactArgs 1;
     Run := fun flags args w =>
       match uuid_Parse (default "" (args !! 0%nat)) with
       | Err err => (w, [PrintErr "Error parsing id" err])
       | Ok id =>
           let '(w, r) := todoServiceImpl.ToggleTodo w id in
           match r with
           | Err err => (w, [PrintErr "Error toggling TODO" err])
           | Ok todo =>
               let status :=
                 if negb (Completed todo) then "pending" else "completed" in
               (w, [Print ("Todo marked as " ++ status ++ "!");
                    printTodo todo])
           end
       end |}.

End Commands.

(** [createCommand] defines a title flag beside the description flag; its
    Run reads the description flag alone and takes the title from the
    argument. *)
Definition createCommand : Command :=
  {| Use := "create [title]";
     Flags :=
       Cobra.StringP (Cobra.StringP Cobra.empty_flags "title" "")
         "description" "";
     Args := Cobra.ExactArgs 1;
     Run := fun flags args w =>
       let '(desc, _) := Cobra.GetString flags "description" in
       let request :=
         {| create_Title := default "" (args !! 0%nat);
            create_Description := desc |} in
       let '(w, r) := todoServiceImpl.CreateTodo w request in
       match r with
       | Err err => (w, [PrintErr "Error creating TODO" err])
       | Ok todo => (w, [Print "TODO created successfully!"; printTodo todo])
       end |}.

(** Running one command of the root: the flags of the command line are
    parsed against the flags the command defines, the arguments are
    checked, the root's PersistentPreRun pings the pool (and leaves the
    process when the ping fails), and then Run is called. *)
Definition Execute (c : Command) (given : list (string * string))
    (args : list string) (w : World) : World * list Event * option error :=
  match Cobra.ParseFlags (Flags c) given with
  | Err e => (w, [], Some e)
  | Ok flags =>
      match Args c args with
      | Some e => (w, [], Some e)
      | None =>
          if alive (db w) then
            let '(w', out) := Run c flags args w in (w', out, None)
          else (w, [PrintErr "Database connection lost" ErrConnClosed; Exit 1],
                None)
      end
  end.

(** [truncate] of the table renderer.  A Go string is a sequence of
    bytes, [len] counts them and [s[:n]] keeps the first [n]; the slice
    panics when [n] is negative or exceeds [len(s)], which is the [None]
    here. *)
Definition truncate (s : string) (length : Z) : option string :=
  if (Z.of_nat (String.length s) <=? length)%Z then Some s
  else
    let n := length - 3 in
    if (n <? 0)%Z || (Z.of_nat (String.length s) <? n)%Z then None
    else Some (String.substring 0 (Z.to_nat n) s ++ "...").

(** ** config *)

Record Config : Type := mkConfig {
  PostgresHost : string;
  PostgresPort : string;
  PostgresUser : string;
  PostgresPassword : string;
  PostgresDB : string;
  PostgresSSLMode : string
}.

(** [os.Getenv]: the value of the variable, and the empty string when the
    environment does not hold it. *)
Definition os_Getenv (env : gmap string string) (key : string) : string :=
  default "" (env !! key).

Definition getEnv (env : gmap string string) (key defaultValue : string)
    : string :=
  let value := os_Getenv env key in
  if decide (value = "") then defaultValue else value.

(** [env] is the process environment once [godotenv.Load] has run. *)
Definition LoadConfig (env : gmap string string) : Config :=
  {| PostgresHost := getEnv env "POSTGRES_HOST" "localhost";
     PostgresPort := getEnv env "POSTGRES_PORT" "5432";
     PostgresUser := getEnv env "POSTGRES_USER" "todo_user";
     PostgresPassword := getEnv env "POSTGRES_PASSWORD" "todo_password";
     PostgresDB := getEnv env "POSTGRES_DB" "todo_db";
     PostgresSSLMode := getEnv env "POSTGRES_SSL_MODE" "disable" |}.

(** [fmt.Sprintf] with six [%s] verbs. *)
Definition GetPostgresDSN (c : Config) : string :=
  "host=" ++ PostgresHost c ++ " port=" ++ PostgresPort c
  ++ " user=" ++ PostgresUser c ++ " password=" ++ PostgresPassword c
  ++ " dbname=" ++ PostgresDB c ++ " sslmode=" ++ PostgresSSLMode c.

(** ** Sequences of service calls *)

(** One call of the TodoService interface, and the state it leaves. *)
Inductive Call : Type :=
  | CallFindAllTodos
  | CallFindTodoByID (id : UUID)
  | CallCreateTodo (request : CreateTodoRequest)
  | CallUpdateTodo (request : UpdateTodoRequest)
  | CallDeleteTodo (id : UUID)
  | CallToggleTodo (id : UUID).

Definition call (s : World) (c : Call) : World :=
  match c with
  | CallFindAllTodos => (todoServiceImpl.FindAllTodos s).1
  | CallFindTodoByID id => (todoServiceImpl.FindTodoByID s id).1
  | CallCreateTodo request => (todoServiceImpl.CreateTodo s request).1
  | CallUpdateTodo request => (todoServiceImpl.UpdateTodo s request).1
  | CallDeleteTodo id => (todoServiceImpl.DeleteTodo s id).1
  | CallToggleTodo id => (todoServiceImpl.ToggleTodo s id).1
  end.

Definition calls (s : World) (cs : list Call) : World := foldl call s cs.

(** ** Shorthands used in the statements *)

(** Every stored row was created no later than it was last updated, and no
    later than any reading the clock has yet to give. *)
Definition well_stamped (s : World) : Prop :=
  forall (id : UUID) (r : Row),
    todos (db s) !! id = Some r ->
    created_at r <= updated_at r
    /\ forall n : nat, (reads s <= n)%nat -> created_at r <= wall s n.

(** The clock never runs backwards. *)
Definition monotone_clock (s : World) : Prop :=
  forall m n : nat, (m <= n)%nat -> wall s m <= wall s n.


(** The stored row [r] of key [id] as FindByID loads it, with completed
    negated: the entity ToggleTodo hands to Update and returns. *)
Definition toggled (id : UUID) (r : Row) : Todo :=
  set_Completed (Sql.scan (id, r)) (negb (completed r)).

(** The test of the list loop, as one boolean: an item is appended when
    neither [continue] is taken. *)
Definition kept_by (filterCompleted filterPending : bool) (todo : Todo)
    : bool :=
  negb (filterCompleted && negb (Completed todo))
  && negb (filterPending && Completed todo).

(** ** A small database to run the code on *)

Module Sample.

Definition milk : Row :=
  {| title := "Buy milk"; description := ""; completed := false;
     created_at := 1000; updated_at := 1000 |}.

Definition taxes : Row :=
  {| title := "File taxes"; description := "before April";
     completed := true; created_at := 2000; updated_at := 2500 |}.

Definition table : gmap UUID Row := <[2%N := taxes]> (<[1%N := milk]> ∅).

Definition pool : Pool := {| alive := true; todos := table |}.

(** A clock that advances by one unit at every reading, and identifiers
    drawn from 7 upwards. *)
Definition world : World :=
  {| db := pool;
     wall := fun n => 3000 + Z.of_nat n;
     reads := 0;
     rand := fun n => (7 + N.of_nat n)%N;
     draws := 0 |}.

(** A parser that knows the two identifiers of the table. *)
Definition uuid_Parse (s : string) : result UUID :=
  if decide (s = "00000000-0000-0000-0000-000000000001") then Ok 1%N
  else if decide (s = "00000000-0000-0000-0000-000000000002") then Ok 2%N
  else Err (ErrInvalidUUID s).

Definition ghost : Todo :=
  {| ID := 9%N; Title := "Non-existent"; Description := "Should not exists";
     Completed := false; CreatedAt := 4000; UpdatedAt := 4000 |}.

End Sample.

(** * Properties *)

(** ** The gateway on a reachable database *)

Lemma Pool_eta (p : Pool) : {| alive := alive p; todos := todos p |} = p.
Proof. by destruct p. Qed.

Lemma set_db_same (w : World) : set_db w (db w) = w.
Proof. by destruct w. Qed.

Lemma db_set_db (w : World) (p : Pool) : db (set_db w p) = p.
Proof. reflexivity. Qed.

Section Gateway.

Variable p : Pool.
Hypothesis Halive : alive p = true.

Lemma FindByID_found (id : UUID) (r : Row) :
  todos p !! id = Some r ->
  TodoRepository.FindByID p id = Ok (Sql.scan (id, r)).
Proof.
  intros Hr. unfold TodoRepository.FindByID, Pgx.QueryRow_Scan.
  rewrite Halive. unfold Sql.select_by_id. by rewrite Hr.
Qed.

Lemma FindByID_missing (id : UUID) :
  todos p !! id = None ->
  TodoRepository.FindByID p id = Err ErrNoRows.
Proof.
  intros Hr. unfold TodoRepository.FindByID, Pgx.QueryRow_Scan.
  rewrite Halive. unfold Sql.select_by_id. by rewrite Hr.
Qed.

Lemma Create_fresh (todo : Todo) :
  todos p !! ID todo = None ->
  TodoRepository.Create p todo =
    ({| alive := true;
        todos := <[ID todo :=
                    {| title := Title todo;
                       description := Description todo;
                       completed := Completed todo;
                       created_at := CreatedAt todo;
                       updated_at := UpdatedAt todo |}]> (todos p) |},
     None).
Proof.
  intros Hr. unfold TodoRepository.Create, Pgx.Exec_insert, Sql.insert.
  by rewrite Halive, Hr.
Qed.

Lemma Create_taken (todo : Todo) :
  is_Some (todos p !! ID todo) ->
  TodoRepository.Create p todo = (p, Some Conflict).
Proof.
  intros [r Hr]. unfold TodoRepository.Create, Pgx.Exec_insert, Sql.insert.
  by rewrite Halive, Hr.
Qed.

Lemma Update_found (todo : Todo) (r : Row) :
  todos p !! ID todo = Some r ->
  TodoRepository.Update p todo =
    ({| alive := true;
        todos := <[ID todo :=
                    {| title := Title todo;
                       description := Description todo;
                       completed := completed r;
                       created_at := created_at r;
                       updated_at := UpdatedAt todo |}]> (todos p) |},
     None).
Proof.
  intros Hr. unfold TodoRepository.Update, Pgx.Exec_update, Sql.update.
  by rewrite Halive, Hr.
Qed.

(** With no matching row the statement affects zero rows, and the
    gateway, which looks at the error alone, reports success. *)
Lemma Update_missing (todo : Todo) :
  todos p !! ID todo = None ->
  TodoRepository.Update p todo = (p, None).
Proof.
  intros Hr. unfold TodoRepository.Update, Pgx.Exec_update, Sql.update.
  rewrite Hr. cbn. by rewrite Pool_eta, Halive.
Qed.

Lemma Delete_found (id : UUID) :
  is_Some (todos p !! id) ->
  TodoRepository.Delete p id =
    ({| alive := true; todos := delete id (todos p) |}, None).
Proof.
  intros [r Hr]. unfold TodoRepository.Delete, Pgx.Exec_delete, Sql.delete.
  by rewrite Halive, Hr.
Qed.

Lemma Delete_missing (id : UUID) :
  todos p !! id = None ->
  TodoRepository.Delete p id = (p, None).
Proof.
  intros Hr. unfold TodoRepository.Delete, Pgx.Exec_delete, Sql.delete.
  rewrite Hr. cbn. by rewrite Pool_eta, Halive.
Qed.

End Gateway.

(** The UPDATE statement of the gateway never touches the completed and
    created_at columns, whatever entity it is given. *)
Lemma Update_keeps_completed (p : Pool) (todo : Todo) (k : UUID) :
  completed <$> (todos (TodoRepository.Update p todo).1 !! k)
  = completed <$> (todos p !! k)
  /\ created_at <$> (todos (TodoRepository.Update p todo).1 !! k)
     = created_at <$> (todos p !! k).
Proof.
  unfold TodoRepository.Update, Pgx.Exec_update, Sql.update.
  destruct (alive p); [|done].
  destruct (todos p !! ID todo) as [r|] eqn:Hr; [|done].
  cbn. destruct (decide (ID todo = k)) as [<-|Hne].
  - by rewrite lookup_insert_eq, Hr.
  - by rewrite lookup_insert_ne.
Qed.

(** ** Update and Delete on an id that is not stored *)

(** C3. On a reachable database that stores ids 1 and 2, the gateway
    Update of a todo whose id is 9 returns a nil error and leaves the
    table as it was: the statement affects zero rows, and Update returns
    only the error of Exec, never reading the command tag.  No NotFound
    is raised. *)
Theorem Update_unknown_id_reports_success :
  todos Sample.pool !! ID Sample.ghost = None
  /\ Pgx.Exec_update Sample.pool (Title Sample.ghost)
       (Description Sample.ghost) (UpdatedAt Sample.ghost) (ID Sample.ghost)
     = (Sample.pool, 0%N, None)
  /\ TodoRepository.Update Sample.pool Sample.ghost = (Sample.pool, None).
Proof. split; [reflexivity|]. split; reflexivity. Qed.

(** C4. On a reachable database that stores ids 1 and 2, the gateway
    Delete of id 9 returns a nil error and leaves the table as it was:
    zero rows are affected and the command tag is dropped.  No NotFound is
    raised. *)
Theorem Delete_unknown_id_reports_success :
  todos Sample.pool !! 9%N = None
  /\ Pgx.Exec_delete Sample.pool 9%N = (Sample.pool, 0%N, None)
  /\ TodoRepository.Delete Sample.pool 9%N = (Sample.pool, None).
Proof. split; [reflexivity|]. split; reflexivity. Qed.

(** What Update and Delete do on an id that is stored. *)
Lemma Update_rewrites_three_columns (p : Pool) (todo : Todo) (r : Row) :
  alive p = true ->
  todos p !! ID todo = Some r ->
  exists p',
    TodoRepository.Update p todo = (p', None)
    /\ todos p' !! ID todo =
         Some {| title := Title todo; description := Description todo;
                 completed := completed r; created_at := created_at r;
                 updated_at := UpdatedAt todo |}
    /\ forall k, k <> ID todo -> todos p' !! k = todos p !! k.
Proof.
  intros Ha Hr. eexists. split; [by apply Update_found|]. cbn. split.
  - by rewrite lookup_insert_eq.
  - intros k Hk. by rewrite lookup_insert_ne.
Qed.

Lemma Delete_removes_that_row (p : Pool) (id : UUID) :
  alive p = true ->
  is_Some (todos p !! id) ->
  exists p',
    TodoRepository.Delete p id = (p', None)
    /\ todos p' !! id = None
    /\ forall k, k <> id -> todos p' !! k = todos p !! k.
Proof.
  intros Ha Hr. eexists. split; [by apply Delete_found|]. cbn. split.
  - by rewrite lookup_delete_eq.
  - intros k Hk. by rewrite lookup_delete_ne.
Qed.

(** ** Delete, then find *)

(** C10. For every stored todo, on a reachable database, DeleteTodo on its
    id succeeds, and FindByID on the same id in the resulting state fails
    with the NotFound error, through the gateway and through the service
    alike. *)
Theorem DeleteTodo_then_FindByID_NotFound (s : World) (id : UUID) :
  alive (db s) = true ->
  is_Some (todos (db s) !! id) ->
  exists s',
    todoServiceImpl.DeleteTodo s id = (s', None)
    /\ TodoRepository.FindByID (db s') id = Err NotFound
    /\ todoServiceImpl.FindTodoByID s' id = (s', Err NotFound).
Proof.
  intros Ha Hr. unfold todoServiceImpl.DeleteTodo, todoServiceImpl.FindTodoByID.
  rewrite (Delete_found _ Ha _ Hr). eexists. split; [reflexivity|].
  rewrite db_set_db.
  assert (TodoRepository.FindByID
            {| alive := true; todos := delete id (todos (db s)) |} id
          = Err NotFound) as ->; [|done].
  apply FindByID_missing; [done|]. cbn. apply lookup_delete_eq.
Qed.

Lemma DeleteTodo_then_FindByID_NotFound_witness :
  alive (db Sample.world) = true
  /\ is_Some (todos (db Sample.world) !! 1%N)
  /\ exists s',
       todoServiceImpl.DeleteTodo Sample.world 1%N = (s', None)
       /\ TodoRepository.FindByID (db s') 1%N = Err NotFound
       /\ todoServiceImpl.FindTodoByID s' 1%N = (s', Err NotFound).
Proof.
  split; [reflexivity|]. split; [by eexists|].
  apply (DeleteTodo_then_FindByID_NotFound Sample.world 1%N);
    [reflexivity | by eexists].
Defined.

(** ** ToggleTodo *)

Lemma Row_eta (r : Row) :
  {| title := title r; description := description r;
     completed := completed r; created_at := created_at r;
     updated_at := updated_at r |} = r.
Proof. by destruct r. Qed.

Lemma ToggleTodo_found (s : World) (id : UUID) (r : Row) :
  alive (db s) = true ->
  todos (db s) !! id = Some r ->
  todoServiceImpl.ToggleTodo s id = (s, Ok (toggled id r)).
Proof.
  intros Ha Hr. unfold todoServiceImpl.ToggleTodo.
  rewrite (FindByID_found _ Ha _ _ Hr). cbn.
  rewrite (Update_found _ Ha _ r) by done. cbn.
  rewrite Row_eta, (insert_id _ _ _ Hr), <- Ha, Pool_eta, set_db_same.
  reflexivity.
Qed.

(** C2. For every existing todo, on a reachable database, ToggleTodo
    returns the loaded entity with completed negated and leaves the whole
    state, hence the persisted row, exactly as it was: the Update it
    delegates to runs the UPDATE statement with the title, description and
    updated_at just loaded (one row affected, nothing changed), and that
    statement never writes the completed column, whatever entity it is
    given. *)
Theorem ToggleTodo_leaves_row_unchanged (s : World) (id : UUID) (r : Row) :
  alive (db s) = true ->
  todos (db s) !! id = Some r ->
  todoServiceImpl.ToggleTodo s id = (s, Ok (toggled id r))
  /\ Completed (toggled id r) = negb (completed r)
  /\ todos (db (todoServiceImpl.ToggleTodo s id).1) !! id = Some r
  /\ TodoRepository.Update (db s) (toggled id r) = (db s, None)
  /\ Pgx.Exec_update (db s) (title r) (description r) (updated_at r) id
     = (db s, 1%N, None)
  /\ forall (p : Pool) (todo : Todo) (k : UUID),
       completed <$> (todos (TodoRepository.Update p todo).1 !! k)
       = completed <$> (todos p !! k).
Proof.
  intros Ha Hr.
  assert (Pgx.Exec_update (db s) (title r) (description r) (updated_at r) id
          = (db s, 1%N, None)) as Hexec.
  { unfold Pgx.Exec_update, Sql.update. rewrite Ha, Hr.
    by rewrite Row_eta, (insert_id _ _ _ Hr), <- Ha, Pool_eta. }
  split_and!.
  - by apply ToggleTodo_found.
  - reflexivity.
  - by rewrite (ToggleTodo_found _ _ _ Ha Hr).
  - unfold TodoRepository.Update. cbn. by rewrite Hexec.
  - exact Hexec.
  - intros p todo k. apply Update_keeps_completed.
Qed.

Lemma ToggleTodo_leaves_row_unchanged_witness :
  alive (db Sample.world) = true
  /\ todos (db Sample.world) !! 1%N = Some Sample.milk
  /\ todoServiceImpl.ToggleTodo Sample.world 1%N
     = (Sample.world, Ok (toggled 1%N Sample.milk)).
Proof.
  split; [reflexivity|]. split; [reflexivity|].
  apply (ToggleTodo_leaves_row_unchanged Sample.world 1%N Sample.milk);
    reflexivity.
Defined.

(** C1. On the sample database, where todo 1 is stored with completed =
    false, a first ToggleTodo returns completed = true and the stored
    value stays false; a second ToggleTodo on the same id loads false
    again and returns completed = true once more, not the false the todo
    had before the first toggle.  The returned flag is the negation of
    the stored one each time, but two toggles do not return the original
    value. *)
Theorem ToggleTodo_twice_returns_flipped_again :
  let before := completed <$> (todos (db Sample.world) !! 1%N) in
  let first := todoServiceImpl.ToggleTodo Sample.world 1%N in
  let second := todoServiceImpl.ToggleTodo first.1 1%N in
  before = Some false
  /\ first.2 = Ok (toggled 1%N Sample.milk)
  /\ Completed (toggled 1%N Sample.milk) = true
  /\ completed <$> (todos (db first.1) !! 1%N) = Some false
  /\ second.2 = Ok (toggled 1%N Sample.milk)
  /\ completed <$> (todos (db second.1) !! 1%N) = Some false.
Proof. cbv zeta. split_and!; reflexivity. Qed.

(** ** CreateTodo *)

(** C5, as stated, fails: with a clock that has advanced between the two
    readings CreateTodo takes, the entity it persists and returns has
    completed = false but created_at = 3000 and updated_at = 3001. *)
Lemma CreateTodo_instants_differ :
  exists todo : Todo,
    (todoServiceImpl.CreateTodo Sample.world
       {| create_Title := "Buy bread"; create_Description := "" |}).2
    = Ok todo
    /\ Completed todo = false
    /\ CreatedAt todo = 3000
    /\ UpdatedAt todo = 3001
    /\ CreatedAt todo <> UpdatedAt todo.
Proof. eexists. split; [reflexivity|]. cbn. split_and!; done. Qed.

(** C5, amended.  For every create request, on a reachable database whose
    table does not hold the drawn id, CreateTodo succeeds; the entity it
    constructs, persists and returns has completed = false, its created_at
    is the clock reading taken first and its updated_at the reading taken
    next, so the two are equal exactly when the clock returns the same
    instant on both readings. *)
Theorem CreateTodo_completed_false_two_readings
    (s : World) (request : CreateTodoRequest) :
  alive (db s) = true ->
  todos (db s) !! rand s (draws s) = None ->
  exists (s' : World) (todo : Todo),
    todoServiceImpl.CreateTodo s request = (s', Ok todo)
    /\ ID todo = rand s (draws s)
    /\ Title todo = create_Title request
    /\ Description todo = create_Description request
    /\ Completed todo = false
    /\ CreatedAt todo = wall s (reads s)
    /\ UpdatedAt todo = wall s (S (reads s))
    /\ todos (db s') !! ID todo
       = Some {| title := Title todo; description := Description todo;
                 completed := false; created_at := CreatedAt todo;
                 updated_at := UpdatedAt todo |}
    /\ (CreatedAt todo = UpdatedAt todo
        <-> wall s (reads s) = wall s (S (reads s))).
Proof.
  intros Ha Hfresh. unfold todoServiceImpl.CreateTodo. cbn.
  rewrite (Create_fresh _ Ha) by done. cbn.
  do 2 eexists. split; [reflexivity|]. cbn.
  rewrite lookup_insert_eq. by split_and!.
Qed.

Lemma CreateTodo_completed_false_two_readings_witness :
  alive (db Sample.world) = true
  /\ todos (db Sample.world) !! rand Sample.world (draws Sample.world) = None
  /\ exists (s' : World) (todo : Todo),
       todoServiceImpl.CreateTodo Sample.world
         {| create_Title := "Buy bread"; create_Description := "" |}
       = (s', Ok todo)
       /\ Completed todo = false
       /\ CreatedAt todo = 3000
       /\ UpdatedAt todo = 3001.
Proof.
  split; [reflexivity|]. split; [reflexivity|].
  destruct (CreateTodo_completed_false_two_readings Sample.world
              {| create_Title := "Buy bread"; create_Description := "" |}
              eq_refl eq_refl)
    as (s' & todo & Hrun & _ & _ & _ & Hc & Hcr & Hup & _).
  exists s', todo. by split_and!.
Defined.

(** ** UpdateTodo *)

Lemma UpdateTodo_found (s : World) (request : UpdateTodoRequest) (r : Row) :
  alive (db s) = true ->
  todos (db s) !! update_ID request = Some r ->
  todoServiceImpl.UpdateTodo s request =
    (set_db (time_Now s).2
       {| alive := true;
          todos := <[update_ID request :=
                      {| title := update_Title request;
                         description := update_Description request;
                         completed := completed r;
                         created_at := created_at r;
                         updated_at := wall s (reads s) |}]> (todos (db s)) |},
     Ok {| ID := update_ID request;
           Title := update_Title request;
           Description := update_Description request;
           Completed := completed r;
           CreatedAt := created_at r;
           UpdatedAt := wall s (reads s) |}).
Proof.
  intros Ha Hr. unfold todoServiceImpl.UpdateTodo.
  rewrite (FindByID_found _ Ha _ _ Hr). cbn.
  by rewrite (Update_found _ Ha _ r).
Qed.

(** C6. For every existing todo and every update request, on a reachable
    database, UpdateTodo succeeds; the entity it returns has the
    request's title and description and the clock reading as updated_at,
    and the id, created_at and completed of the stored row; the persisted
    row changes in the same three columns and keeps its completed and
    created_at under the same key; every other row is left as it was. *)
Theorem UpdateTodo_changes_three_fields
    (s : World) (request : UpdateTodoRequest) (r : Row) :
  alive (db s) = true ->
  todos (db s) !! update_ID request = Some r ->
  exists (s' : World) (todo : Todo),
    todoServiceImpl.UpdateTodo s request = (s', Ok todo)
    /\ todo = {| ID := update_ID request;
                 Title := update_Title request;
                 Description := update_Description request;
                 Completed := completed r;
                 CreatedAt := created_at r;
                 UpdatedAt := wall s (reads s) |}
    /\ todos (db s') !! update_ID request
       = Some {| title := update_Title request;
                 description := update_Description request;
                 completed := completed r;
                 created_at := created_at r;
                 updated_at := wall s (reads s) |}
    /\ forall k : UUID,
         k <> update_ID request -> todos (db s') !! k = todos (db s) !! k.
Proof.
  intros Ha Hr. rewrite (UpdateTodo_found _ _ _ Ha Hr).
  do 2 eexists. split; [reflexivity|]. cbn. split_and!.
  - reflexivity.
  - by rewrite lookup_insert_eq.
  - intros k Hk. by rewrite lookup_insert_ne.
Qed.

Lemma UpdateTodo_changes_three_fields_witness :
  alive (db Sample.world) = true
  /\ todos (db Sample.world) !! 2%N = Some Sample.taxes
  /\ exists (s' : World) (todo : Todo),
       todoServiceImpl.UpdateTodo Sample.world
         {| update_ID := 2%N; update_Title := "File taxes early";
            update_Description := "" |}
       = (s', Ok todo)
       /\ Completed todo = true
       /\ CreatedAt todo = 2000
       /\ completed <$> (todos (db s') !! 2%N) = Some true.
Proof.
  split; [reflexivity|]. split; [reflexivity|].
  destruct (UpdateTodo_changes_three_fields Sample.world
              {| update_ID := 2%N; update_Title := "File taxes early";
                 update_Description := "" |} Sample.taxes eq_refl eq_refl)
    as (s' & todo & Hrun & -> & Hrow & _).
  exists s'. eexists. split; [exact Hrun|].
  split_and!; [reflexivity | reflexivity |].
  exact (f_equal (fmap completed) Hrow).
Defined.

(** ** FindAll *)

#[local] Instance newest_first_trans : Transitive Sql.newest_first.
Proof. intros a b c. unfold Sql.newest_first. lia. Qed.

#[local] Instance newest_first_total : Total Sql.newest_first.
Proof. intros a b. unfold Sql.newest_first. lia. Qed.

#[local] Instance scan_inj : Inj (=) (=) Sql.scan.
Proof.
  intros [k1 [t1 d1 c1 cr1 u1]] [k2 [t2 d2 c2 cr2 u2]] H.
  unfold Sql.scan in H. cbn in H. by simplify_eq.
Qed.

Lemma foldl_append {A : Type} (rows acc : list A) :
  foldl (fun todos todo => (todos ++ [todo])%list) acc rows
  = (acc ++ rows)%list.
Proof.
  revert acc. induction rows as [|x rows IH]; intros acc; cbn.
  - by rewrite app_nil_r.
  - by rewrite IH, <- app_assoc.
Qed.

Lemma FindAll_alive (p : Pool) :
  alive p = true ->
  TodoRepository.FindAll p = Ok (Sql.select_all (todos p)).
Proof.
  intros Ha. unfold TodoRepository.FindAll, Pgx.Query_all.
  by rewrite Ha, foldl_append.
Qed.

(** C7. For every stored state, on a reachable database, FindAll returns a
    sequence that is a permutation of the stored rows (each row of the
    table occurs in it, nothing else does, and nothing occurs twice) and
    in which no todo stands before one with a later created_at; when the
    table is empty the result is the empty sequence, not an error. *)
Theorem FindAll_every_row_newest_first (p : Pool) :
  alive p = true ->
  exists l : list Todo,
    TodoRepository.FindAll p = Ok l
    /\ l ≡ₚ (Sql.scan <$> map_to_list (todos p))
    /\ (forall (id : UUID) (r : Row),
          todos p !! id = Some r <-> Sql.scan (id, r) ∈ l)
    /\ NoDup l
    /\ StronglySorted (fun a b : Todo => CreatedAt b <= CreatedAt a) l
    /\ (todos p = ∅ -> l = []).
Proof.
  intros Ha. exists (Sql.select_all (todos p)).
  assert (Sql.select_all (todos p) ≡ₚ (Sql.scan <$> map_to_list (todos p)))
    as Hperm by apply merge_sort_Permutation.
  split_and!.
  - by apply FindAll_alive.
  - exact Hperm.
  - intros id r. rewrite Hperm, list_elem_of_fmap. split.
    + intros Hr. exists (id, r). split; [done|].
      by apply elem_of_map_to_list.
    + intros ([k r'] & Heq & Hin). apply (inj Sql.scan) in Heq.
      simplify_eq. by apply elem_of_map_to_list.
  - rewrite Hperm. apply (NoDup_fmap_2 _). apply NoDup_map_to_list.
  - apply (StronglySorted_merge_sort Sql.newest_first).
  - intros ->. unfold Sql.select_all. by rewrite map_to_list_empty.
Qed.

Lemma FindAll_every_row_newest_first_witness :
  alive Sample.pool = true
  /\ exists l : list Todo,
       TodoRepository.FindAll Sample.pool = Ok l
       /\ l = [Sql.scan (2%N, Sample.taxes); Sql.scan (1%N, Sample.milk)].
Proof.
  split; [reflexivity|].
  destruct (FindAll_every_row_newest_first Sample.pool eq_refl)
    as (l & Hrun & _).
  exists l. split; [exact Hrun|].
  assert (Ok l = Ok [Sql.scan (2%N, Sample.taxes); Sql.scan (1%N, Sample.milk)])
    as Heq by (rewrite <- Hrun; reflexivity).
  by injection Heq.
Defined.

(** An empty table on a reachable database: the empty sequence, no error. *)
Lemma FindAll_empty :
  TodoRepository.FindAll {| alive := true; todos := ∅ |} = Ok [].
Proof. reflexivity. Qed.

(** ** The list command *)

Lemma list_loop_kept (filterCompleted filterPending : bool)
    (todos filteredTodos : list Todo) :
  (list_loop filterCompleted filterPending todos filteredTodos).1
  = (filteredTodos ++
     filter (fun todo : Todo =>
               kept_by filterCompleted filterPending todo = true) todos)%list.
Proof.
  revert filteredTodos.
  induction todos as [|todo rest IH]; intros filteredTodos; cbn [list_loop].
  - by rewrite filter_nil, app_nil_r.
  - destruct (kept_by filterCompleted filterPending todo) eqn:K.
    + rewrite filter_cons_True by done. unfold kept_by in K.
      destruct filterCompleted, filterPending, (Completed todo);
        try discriminate K; cbn [andb negb];
        (specialize (IH (filteredTodos ++ [todo])%list);
         destruct (list_loop _ _ rest _) as [kept out];
         cbn [fst] in *; by rewrite IH, <- app_assoc).
    + rewrite filter_cons_False by (by rewrite K). unfold kept_by in K.
      destruct filterCompleted, filterPending, (Completed todo);
        try discriminate K; cbn [andb negb]; apply IH.
Qed.

(** Were the two booleans ever set, the loop would split the fetched list
    in two: with [filterCompleted] alone it keeps the completed items, with
    [filterPending] alone the others, in the order fetched. *)
Lemma list_loop_partition (todos : list Todo) :
  let done_ := (list_loop true false todos []).1 in
  let pending := (list_loop false true todos []).1 in
  done_ = filter (fun todo : Todo => Completed todo = true) todos
  /\ pending = filter (fun todo : Todo => Completed todo = false) todos
  /\ (done_ ++ pending)%list ≡ₚ todos
  /\ forall todo : Todo, todo ∈ done_ -> todo ∉ pending.
Proof.
  cbv zeta. rewrite !list_loop_kept. cbn [app].
  assert (forall l : list Todo,
    filter (fun todo : Todo => kept_by true false todo = true) l
    = filter (fun todo : Todo => Completed todo = true) l) as ->.
  { intros l. apply list_filter_iff. intros t. unfold kept_by.
    by destruct (Completed t). }
  assert (forall l : list Todo,
    filter (fun todo : Todo => kept_by false true todo = true) l
    = filter (fun todo : Todo => Completed todo = false) l) as ->.
  { intros l. apply list_filter_iff. intros t. unfold kept_by.
    by destruct (Completed t). }
  split_and!; [done | done | |].
  - rewrite <- (filter_app_complement
                  (fun todo : Todo => Completed todo = true) todos) at 3.
    f_equiv.
    rewrite (list_filter_iff (fun todo : Todo => Completed todo = false)
               (fun todo : Todo => Completed todo <> true)); [done|].
    intros t. by destruct (Completed t).
  - intros t. rewrite !list_elem_of_filter. intros [Hc _] [Hp _]. congruence.
Qed.

(** A command line is parsed without error against a command that defines
    no flag only when it carries no flag. *)
Lemma ParseFlags_none_defined (given : list (string * string))
    (flags : gmap string Cobra.Value) :
  Cobra.ParseFlags Cobra.empty_flags given = Ok flags ->
  given = [] /\ list_filters flags = (false, false).
Proof.
  destruct given as [|[name value] rest]; cbn.
  - intros [= <-]. done.
  - unfold Cobra.Set_, Cobra.empty_flags. by rewrite lookup_empty.
Qed.

(** C8. The list command defines no flag (createCommand and updateCommand
    define theirs, findAllCommand returns its literal untouched).  On the
    sample database, which holds one completed and one pending todo,
    [list --completed] and [list --pending] are both rejected with an
    unknown-flag error before Run is called and print nothing; and in Run,
    on the flag set the command does have, both GetBool reads yield false,
    so that both todos are kept.  No invocation yields the completed or
    the pending part. *)
Theorem list_completed_and_pending_flags_undefined :
  Flags findAllCommand = ∅
  /\ Execute findAllCommand [("completed", "true")] [] Sample.world
     = (Sample.world, [], Some (ErrUnknownFlag "completed"))
  /\ Execute findAllCommand [("pending", "true")] [] Sample.world
     = (Sample.world, [], Some (ErrUnknownFlag "pending"))
  /\ Cobra.GetBool (Flags findAllCommand) "completed"
     = (false, Some (ErrFlagNotDefined "completed"))
  /\ Cobra.GetBool (Flags findAllCommand) "pending"
     = (false, Some (ErrFlagNotDefined "pending"))
  /\ Execute findAllCommand [] [] Sample.world
     = (Sample.world,
        [printTodoTable [Sql.scan (2%N, Sample.taxes)];
         printTodoTable [Sql.scan (2%N, Sample.taxes);
                         Sql.scan (1%N, Sample.milk)]],
        None).
Proof. split_and!; reflexivity. Qed.

(** ** The update command *)

(** Parsing a command line that names only the two flags of the update
    command succeeds and leaves a flag the line does not name at its
    default. *)
Lemma ParseFlags_title_description (given : list (string * string)) :
  forall (f : gmap string Cobra.Value) (t d : string),
    f !! "title" = Some (Cobra.StringValue t) ->
    f !! "description" = Some (Cobra.StringValue d) ->
    Forall (fun nv : string * string =>
              nv.1 = "title" \/ nv.1 = "description") given ->
    exists (f' : gmap string Cobra.Value) (t' d' : string),
      Cobra.ParseFlags f given = Ok f'
      /\ f' !! "title" = Some (Cobra.StringValue t')
      /\ f' !! "description" = Some (Cobra.StringValue d')
      /\ ("title" ∉ given.*1 -> t' = t)
      /\ ("description" ∉ given.*1 -> d' = d).
Proof.
  induction given as [|[name value] rest IH]; intros f t d Ht Hd Hall.
  - exists f, t, d. by split_and!.
  - apply Forall_cons in Hall as [Hname Hrest]. cbn in Hname.
    cbn [Cobra.ParseFlags]. unfold Cobra.Set_.
    destruct Hname as [-> | ->].
    + rewrite Ht.
      destruct (IH (<["title" := Cobra.StringValue value]> f) value d)
        as (f' & t' & d' & Hrun & Ht' & Hd' & Hkt & Hkd); [| |done|].
      { by rewrite lookup_insert_eq. }
      { by rewrite lookup_insert_ne. }
      exists f', t', d'. split_and!; try done.
      * intros Hnot. exfalso. apply Hnot. cbn. left.
      * intros Hnot. apply Hkd. intros Hin. apply Hnot. cbn. by right.
    + rewrite Hd.
      destruct (IH (<["description" := Cobra.StringValue value]> f) t value)
        as (f' & t' & d' & Hrun & Ht' & Hd' & Hkt & Hkd); [| |done|].
      { by rewrite lookup_insert_ne. }
      { by rewrite lookup_insert_eq. }
      exists f', t', d'. split_and!; try done.
      * intros Hnot. apply Hkt. intros Hin. apply Hnot. cbn. by right.
      * intros Hnot. exfalso. apply Hnot. cbn. left.
Qed.

(** C9. For every invocation of the update command on an existing id, on
    a reachable database, with a command line that names no flag other
    than title and description: the command runs UpdateTodo with the
    request built from its flags and reports success; the stored title
    and description become those of the request; and a flag the command
    line does not supply is the empty string in the request, so the
    stored field becomes empty, whatever it held. *)
Theorem updateCommand_absent_flag_blanks_field
    (uuid_Parse : string -> result UUID) (w : World)
    (given : list (string * string)) (arg : string) (id : UUID) (r : Row) :
  uuid_Parse arg = Ok id ->
  alive (db w) = true ->
  todos (db w) !! id = Some r ->
  Forall (fun nv : string * string =>
            nv.1 = "title" \/ nv.1 = "description") given ->
  exists (flags : gmap string Cobra.Value) (w' : World) (todo : Todo),
    Cobra.ParseFlags (Flags (updateCommand uuid_Parse)) given = Ok flags
    /\ Execute (updateCommand uuid_Parse) given [arg] w
       = (w', [Print "TODO updated successfully!"; printTodo todo], None)
    /\ todoServiceImpl.UpdateTodo w (update_request flags id) = (w', Ok todo)
    /\ title <$> (todos (db w') !! id)
       = Some (update_Title (update_request flags id))
    /\ description <$> (todos (db w') !! id)
       = Some (update_Description (update_request flags id))
    /\ ("title" ∉ given.*1 ->
        update_Title (update_request flags id) = ""
        /\ title <$> (todos (db w') !! id) = Some "")
    /\ ("description" ∉ given.*1 ->
        update_Description (update_request flags id) = ""
        /\ description <$> (todos (db w') !! id) = Some "").
Proof.
  intros Hparse Ha Hr Hall.
  destruct (ParseFlags_title_description given
              (Flags (updateCommand uuid_Parse)) "" "")
    as (flags & t & d & Hflags & Ht & Hd & Hkt & Hkd); [done..|].
  assert (update_request flags id
          = {| update_ID := id; update_Title := t; update_Description := d |})
    as Hreq.
  { unfold update_request, Cobra.GetString. by rewrite Ht, Hd. }
  pose proof (UpdateTodo_found w (update_request flags id) r Ha) as Hrun.
  rewrite Hreq in Hrun. specialize (Hrun Hr).
  exists flags. rewrite Hreq. do 2 eexists. split; [exact Hflags|].
  assert (forall w' todo,
    todoServiceImpl.UpdateTodo w
      {| update_ID := id; update_Title := t; update_Description := d |}
    = (w', Ok todo) ->
    Execute (updateCommand uuid_Parse) given [arg] w
    = (w', [Print "TODO updated successfully!"; printTodo todo], None))
    as Hexec.
  { intros w' todo Hupd. unfold Execute. rewrite Hflags. cbn.
    rewrite Ha, Hparse, Hreq, Hupd. reflexivity. }
  split; [by apply Hexec|]. split; [exact Hrun|]. cbn.
  rewrite lookup_insert_eq. cbn. split_and!; try done.
  - intros Hnot. by rewrite (Hkt Hnot).
  - intros Hnot. by rewrite (Hkd Hnot).
Qed.

Lemma updateCommand_absent_flag_blanks_field_witness :
  Sample.uuid_Parse "00000000-0000-0000-0000-000000000001" = Ok 1%N
  /\ alive (db Sample.world) = true
  /\ todos (db Sample.world) !! 1%N = Some Sample.milk
  /\ exists (w' : World) (todo : Todo),
       Execute (updateCommand Sample.uuid_Parse) [("description", "2 litres")]
         ["00000000-0000-0000-0000-000000000001"] Sample.world
       = (w', [Print "TODO updated successfully!"; printTodo todo], None)
       /\ title <$> (todos (db w') !! 1%N) = Some ""
       /\ description <$> (todos (db w') !! 1%N) = Some "2 litres".
Proof.
  split; [reflexivity|]. split; [reflexivity|]. split; [reflexivity|].
  destruct (updateCommand_absent_flag_blanks_field Sample.uuid_Parse
              Sample.world [("description", "2 litres")]
              "00000000-0000-0000-0000-000000000001" 1%N Sample.milk
              eq_refl eq_refl eq_refl)
    as (flags & w' & todo & Hflags & Hexec & _ & _ & Hdesc & Htitle & _).
  { constructor; [by right | constructor]. }
  exists w', todo. split; [exact Hexec|]. split.
  - apply Htitle. cbn. intros Hin. apply list_elem_of_singleton in Hin.
    discriminate Hin.
  - refine (eq_trans Hdesc _). vm_compute in Hflags.
    injection Hflags as <-. reflexivity.
Defined.

(** * Further properties of the gateway and the service *)




(** X2. Creating a todo under an id that is already stored fails with the
    Conflict error of the primary key; the pool is left as it was and the
    row stored under that id is still the one FindByID returns. *)
Theorem Create_stored_id_Conflict (p : Pool) (todo : Todo) (r : Row) :
  alive p = true ->
  todos p !! ID todo = Some r ->
  TodoRepository.Create p todo = (p, Some Conflict)
  /\ TodoRepository.FindByID (TodoRepository.Create p todo).1 (ID todo)
     = Ok (Sql.scan (ID todo, r)).
Proof.
  intros Ha Hr.
  assert (TodoRepository.Create p todo = (p, Some Conflict)) as Hrun
    by (apply Create_taken; [done | by eexists]).
  split; [exact Hrun|]. rewrite Hrun. by apply FindByID_found.
Qed.

Lemma Create_stored_id_Conflict_witness :
  alive Sample.pool = true
  /\ todos Sample.pool !! 2%N = Some Sample.taxes
  /\ TodoRepository.Create Sample.pool
       {| ID := 2%N; Title := "Again"; Description := ""; Completed := false;
          CreatedAt := 5000; UpdatedAt := 5000 |}
     = (Sample.pool, Some Conflict).
Proof.
  split; [reflexivity|]. split; [reflexivity|].
  apply (Create_stored_id_Conflict Sample.pool
           {| ID := 2%N; Title := "Again"; Description := "";
              Completed := false; CreatedAt := 5000; UpdatedAt := 5000 |}
           Sample.taxes); reflexivity.
Defined.

(** X3. On a reachable database FindAll and FindByID agree: a todo is in
    the sequence FindAll returns exactly when FindByID on its id returns
    that very todo. *)
Theorem FindAll_agrees_with_FindByID (p : Pool) (todo : Todo) :
  alive p = true ->
  (exists l : list Todo, TodoRepository.FindAll p = Ok l /\ todo ∈ l)
  <-> TodoRepository.FindByID p (ID todo) = Ok todo.
Proof.
  intros Ha. rewrite (FindAll_alive _ Ha). split.
  - intros (l & [= <-] & Hin). unfold Sql.select_all in Hin.
    rewrite merge_sort_Permutation, list_elem_of_fmap in Hin.
    destruct Hin as ([k r] & -> & Hin). apply elem_of_map_to_list in Hin.
    cbn. by apply FindByID_found.
  - intros Hfind. eexists. split; [reflexivity|].
    unfold Sql.select_all. rewrite merge_sort_Permutation, list_elem_of_fmap.
    destruct (todos p !! ID todo) as [r|] eqn:Hr.
    + rewrite (FindByID_found _ Ha _ _ Hr) in Hfind.
      injection Hfind as <-. exists (ID todo, r). split; [done|].
      cbn. by apply elem_of_map_to_list.
    + by rewrite (FindByID_missing _ Ha _ Hr) in Hfind.
Qed.

Lemma FindAll_agrees_with_FindByID_witness :
  alive Sample.pool = true
  /\ TodoRepository.FindByID Sample.pool 2%N = Ok (Sql.scan (2%N, Sample.taxes))
  /\ exists l : list Todo,
       TodoRepository.FindAll Sample.pool = Ok l
       /\ Sql.scan (2%N, Sample.taxes) ∈ l.
Proof.
  split; [reflexivity|]. split; [reflexivity|].
  apply (FindAll_agrees_with_FindByID Sample.pool
           (Sql.scan (2%N, Sample.taxes)) eq_refl).
  reflexivity.
Defined.

(** X4. The gateway Update is no upsert and never removes anything: for
    every pool and every entity, the set of stored ids after Update is the
    set before, and every row keeps its created_at. *)
Theorem Update_keeps_ids_and_created_at (p : Pool) (todo : Todo) :
  dom (todos (TodoRepository.Update p todo).1) = dom (todos p)
  /\ forall k : UUID,
       created_at <$> (todos (TodoRepository.Update p todo).1 !! k)
       = created_at <$> (todos p !! k).
Proof.
  split; [|intros k; apply Update_keeps_completed].
  unfold TodoRepository.Update, Pgx.Exec_update, Sql.update.
  destruct (alive p); [|done].
  destruct (todos p !! ID todo) as [r|] eqn:Hr; [|done].
  cbn. rewrite dom_insert_L. apply subseteq_union_1_L.
  apply singleton_subseteq_l, elem_of_dom. by eexists.
Qed.

(** X5. The gateway Delete is idempotent: a second Delete of the same id
    returns what the first returned and leaves the pool the first left. *)
Theorem Delete_twice (p : Pool) (id : UUID) :
  TodoRepository.Delete (TodoRepository.Delete p id).1 id
  = TodoRepository.Delete p id.
Proof.
  unfold TodoRepository.Delete, Pgx.Exec_delete, Sql.delete.
  destruct (alive p) eqn:Ha; cbn; [|by rewrite Ha].
  destruct (todos p !! id) as [r|] eqn:Hr; cbn.
  - by rewrite lookup_delete_eq.
  - by rewrite Hr.
Qed.

Lemma mem_select_all (t : gmap UUID Row) (todo : Todo) :
  todo ∈ Sql.select_all t
  <-> exists r : Row, t !! ID todo = Some r /\ todo = Sql.scan (ID todo, r).
Proof.
  unfold Sql.select_all. rewrite merge_sort_Permutation, list_elem_of_fmap.
  split.
  - intros ([k r] & -> & Hin). apply elem_of_map_to_list in Hin.
    by exists r.
  - intros (r & Hr & ->). exists (ID todo, r). split; [done|].
    by apply elem_of_map_to_list.
Qed.



(** X7. Delete followed by FindAll, for an id that is stored on a
    reachable database: the sequence FindAll returns afterwards holds
    exactly the todos it held before whose id is not the deleted one, and
    is one shorter. *)
Theorem Delete_then_FindAll (p : Pool) (id : UUID) :
  alive p = true ->
  is_Some (todos p !! id) ->
  exists (p' : Pool) (before after : list Todo),
    TodoRepository.Delete p id = (p', None)
    /\ TodoRepository.FindAll p = Ok before
    /\ TodoRepository.FindAll p' = Ok after
    /\ (forall todo : Todo, todo ∈ after <-> todo ∈ before /\ ID todo <> id)
    /\ S (length after) = length before.
Proof.
  intros Ha [r Hr]. do 3 eexists.
  split; [apply Delete_found; [done | by eexists]|].
  split; [by apply FindAll_alive|].
  split; [by apply FindAll_alive|]. cbn. split.
  - intros todo. rewrite !mem_select_all. split.
    + intros (r' & Hr' & ->). apply lookup_delete_Some in Hr' as [Hne Hr'].
      split; [by exists r' | done].
    + intros [(r' & Hr' & ->) Hne]. exists r'. split; [|done].
      by apply lookup_delete_Some.
  - unfold Sql.select_all. rewrite !merge_sort_Permutation, !length_fmap.
    rewrite <- (map_to_list_delete _ _ _ Hr). reflexivity.
Qed.

Lemma Delete_then_FindAll_witness :
  alive Sample.pool = true
  /\ is_Some (todos Sample.pool !! 2%N)
  /\ exists (p' : Pool) (after : list Todo),
       TodoRepository.Delete Sample.pool 2%N = (p', None)
       /\ TodoRepository.FindAll p' = Ok after
       /\ length after = 1%nat.
Proof.
  split; [reflexivity|]. split; [by eexists|].
  destruct (Delete_then_FindAll Sample.pool 2%N eq_refl
              (ex_intro _ Sample.taxes eq_refl))
    as (p' & before & after & Hrun & Hb & Haf & _ & Hlen).
  exists p', after. split; [exact Hrun|]. split; [exact Haf|].
  assert (Ok before = Ok (Sql.select_all Sample.table)) as Heq
    by (rewrite <- Hb; reflexivity).
  injection Heq as ->. by injection Hlen.
Defined.

(** ** The service: round trip and missing ids *)



(** X9. When the identifier CreateTodo draws is already stored, the
    Conflict of the gateway is returned in place of an entity and the
    table is left as it was. *)
Theorem CreateTodo_drawn_id_stored (s : World) (request : CreateTodoRequest) :
  alive (db s) = true ->
  is_Some (todos (db s) !! rand s (draws s)) ->
  (todoServiceImpl.CreateTodo s request).2 = Err Conflict
  /\ db (todoServiceImpl.CreateTodo s request).1 = db s.
Proof.
  intros Ha Hr. unfold todoServiceImpl.CreateTodo. cbn.
  by rewrite (Create_taken _ Ha).
Qed.

Lemma CreateTodo_drawn_id_stored_witness :
  let s := {| db := Sample.pool; wall := fun n => 3000 + Z.of_nat n;
              reads := 0; rand := fun _ => 1%N; draws := 0 |} in
  alive (db s) = true
  /\ is_Some (todos (db s) !! rand s (draws s))
  /\ (todoServiceImpl.CreateTodo s
        {| create_Title := "Buy bread"; create_Description := "" |}).2
     = Err Conflict.
Proof.
  cbv zeta. split; [reflexivity|]. split; [by eexists|].
  apply (CreateTodo_drawn_id_stored
           {| db := Sample.pool; wall := fun n => 3000 + Z.of_nat n;
              reads := 0; rand := fun _ => 1%N; draws := 0 |}
           {| create_Title := "Buy bread"; create_Description := "" |});
    [reflexivity | by eexists].
Defined.

(** X10. UpdateTodo on an id that is not stored, on a reachable database,
    returns the NotFound of FindByID and stops there: the state is the one
    before, the clock has not been read and the gateway Update has not
    run. *)
Theorem UpdateTodo_missing_id_NotFound (s : World) (request : UpdateTodoRequest) :
  alive (db s) = true ->
  todos (db s) !! update_ID request = None ->
  todoServiceImpl.UpdateTodo s request = (s, Err NotFound).
Proof.
  intros Ha Hr. unfold todoServiceImpl.UpdateTodo.
  by rewrite (FindByID_missing _ Ha _ Hr).
Qed.

Lemma UpdateTodo_missing_id_NotFound_witness :
  alive (db Sample.world) = true
  /\ todos (db Sample.world) !! 9%N = None
  /\ todoServiceImpl.UpdateTodo Sample.world
       {| update_ID := 9%N; update_Title := "x"; update_Description := "" |}
     = (Sample.world, Err NotFound).
Proof.
  split; [reflexivity|]. split; [reflexivity|].
  apply (UpdateTodo_missing_id_NotFound Sample.world
           {| update_ID := 9%N; update_Title := "x";
              update_Description := "" |}); reflexivity.
Defined.

(** X11. ToggleTodo on an id that is not stored, on a reachable database,
    returns the NotFound of FindByID and leaves the state as it was. *)
Theorem ToggleTodo_missing_id_NotFound (s : World) (id : UUID) :
  alive (db s) = true ->
  todos (db s) !! id = None ->
  todoServiceImpl.ToggleTodo s id = (s, Err NotFound).
Proof.
  intros Ha Hr. unfold todoServiceImpl.ToggleTodo.
  by rewrite (FindByID_missing _ Ha _ Hr).
Qed.

Lemma ToggleTodo_missing_id_NotFound_witness :
  alive (db Sample.world) = true
  /\ todos (db Sample.world) !! 9%N = None
  /\ todoServiceImpl.ToggleTodo Sample.world 9%N
     = (Sample.world, Err NotFound).
Proof.
  split; [reflexivity|]. split; [reflexivity|].
  apply (ToggleTodo_missing_id_NotFound Sample.world 9%N); reflexivity.
Defined.

(** ** Sequences of service calls *)

Lemma FindByID_dead (p : Pool) (id : UUID) :
  alive p = false -> TodoRepository.FindByID p id = Err ErrConnClosed.
Proof.
  intros Ha. unfold TodoRepository.FindByID, Pgx.QueryRow_Scan.
  by rewrite Ha.
Qed.

(** What one call can do to the clock and to a row of the table: a row
    found afterwards either was there with the same completed and
    created_at, its updated_at kept or set to the reading the call took,
    or is the row CreateTodo stored. *)
Lemma call_frame (s : World) (c : Call) :
  wall (call s c) = wall s
  /\ (reads s <= reads (call s c))%nat
  /\ forall (k : UUID) (r' : Row),
       todos (db (call s c)) !! k = Some r' ->
       (exists r : Row,
          todos (db s) !! k = Some r
          /\ completed r' = completed r
          /\ created_at r' = created_at r
          /\ (updated_at r' = updated_at r
              \/ updated_at r' = wall s (reads s)))
       \/ (completed r' = false
           /\ created_at r' = wall s (reads s)
           /\ updated_at r' = wall s (S (reads s))).
Proof.
  assert (forall (k : UUID) (r' : Row),
            todos (db s) !! k = Some r' ->
            (exists r : Row,
               todos (db s) !! k = Some r
               /\ completed r' = completed r
               /\ created_at r' = created_at r
               /\ (updated_at r' = updated_at r
                   \/ updated_at r' = wall s (reads s)))
            \/ (completed r' = false
                /\ created_at r' = wall s (reads s)
                /\ updated_at r' = wall s (S (reads s)))) as Hsame.
  { intros k r' Hr'. left. exists r'. by split_and!; [|..|left]. }
  destruct c as [|id|request|request|id|id]; cbn [call].
  - done.
  - done.
  - unfold todoServiceImpl.CreateTodo. cbn.
    unfold TodoRepository.Create, Pgx.Exec_insert, Sql.insert.
    destruct (alive (db s)) eqn:Ha; cbn.
    + destruct (todos (db s) !! rand s (draws s)) eqn:Hr; cbn.
      * split; [done|]. split; [lia|]. exact Hsame.
      * split; [done|]. split; [lia|]. intros k r' Hr'.
        apply lookup_insert_Some in Hr' as [[<- <-]|[Hne Hr']].
        -- by right.
        -- by apply Hsame.
    + split; [done|]. split; [lia|]. exact Hsame.
  - unfold todoServiceImpl.UpdateTodo.
    destruct (alive (db s)) eqn:Ha.
    + destruct (todos (db s) !! update_ID request) as [r|] eqn:Hr.
      * rewrite (FindByID_found _ Ha _ _ Hr). cbn.
        rewrite (Update_found _ Ha _ r) by done. cbn.
        split; [done|]. split; [lia|]. intros k r' Hr'.
        apply lookup_insert_Some in Hr' as [[<- <-]|[Hne Hr']].
        -- left. exists r. by split_and!; [|..|right].
        -- by apply Hsame.
      * rewrite (FindByID_missing _ Ha _ Hr). done.
    + rewrite (FindByID_dead _ _ Ha). done.
  - unfold todoServiceImpl.DeleteTodo, TodoRepository.Delete,
      Pgx.Exec_delete, Sql.delete.
    destruct (alive (db s)) eqn:Ha; cbn; [|done].
    destruct (todos (db s) !! id) eqn:Hr; cbn; [|done].
    split; [done|]. split; [lia|]. intros k r' Hr'.
    apply lookup_delete_Some in Hr' as [Hne Hr']. by apply Hsame.
  - unfold todoServiceImpl.ToggleTodo.
    destruct (alive (db s)) eqn:Ha.
    + destruct (todos (db s) !! id) as [r|] eqn:Hr.
      * rewrite (FindByID_found _ Ha _ _ Hr). cbn.
        rewrite (Update_found _ Ha _ r) by done. cbn.
        split; [done|]. split; [lia|]. intros k r' Hr'.
        apply lookup_insert_Some in Hr' as [[<- <-]|[Hne Hr']].
        -- left. exists r. by split_and!; [|..|left].
        -- by apply Hsame.
      * rewrite (FindByID_missing _ Ha _ Hr). done.
    + rewrite (FindByID_dead _ _ Ha). done.
Qed.

Lemma call_keeps_well_stamped (s : World) (c : Call) :
  monotone_clock s -> well_stamped s ->
  monotone_clock (call s c) /\ well_stamped (call s c).
Proof.
  intros Hmono Hws.
  destruct (call_frame s c) as (Hwall & Hreads & Hrows). split.
  - intros m n Hmn. rewrite Hwall. by apply Hmono.
  - intros k r' Hr'. rewrite Hwall.
    destruct (Hrows k r' Hr') as [(r & Hr & Hc & Hcr & Hup)|(Hc & Hcr & Hup)].
    + destruct (Hws k r Hr) as [Hle Hfut]. rewrite Hcr. split.
      * destruct Hup as [-> | ->]; [done|]. by apply Hfut.
      * intros n Hn. apply Hfut. lia.
    + rewrite Hcr, Hup. split.
      * apply Hmono. lia.
      * intros n Hn. apply Hmono. lia.
Qed.

(** X12. On a clock that never runs backwards, created_at <= updated_at
    is an invariant of the service: if every stored row satisfies it and
    none was created after a reading the clock has yet to give, the same
    holds after any sequence of FindAllTodos, FindTodoByID, CreateTodo,
    UpdateTodo, DeleteTodo and ToggleTodo calls, reachable database or
    not. *)
Theorem calls_keep_well_stamped (cs : list Call) (s : World) :
  monotone_clock s ->
  well_stamped s ->
  well_stamped (calls s cs)
  /\ forall (id : UUID) (r : Row),
       todos (db (calls s cs)) !! id = Some r -> created_at r <= updated_at r.
Proof.
  intros Hmono Hws.
  assert (monotone_clock (calls s cs) /\ well_stamped (calls s cs)) as [_ H].
  { revert s Hmono Hws. induction cs as [|c cs IH]; intros s Hmono Hws.
    - done.
    - destruct (call_keeps_well_stamped s c Hmono Hws) as [Hm' Hw'].
      apply (IH (call s c) Hm' Hw'). }
  split; [exact H|]. intros id r Hr. by apply (H id r Hr).
Qed.

Lemma Sample_world_well_stamped : well_stamped Sample.world.
Proof.
  intros id r Hr. cbn in Hr. unfold Sample.table in Hr.
  apply lookup_insert_Some in Hr as [[<- <-]|[_ Hr]].
  - cbn. split; [lia|]. intros n _. lia.
  - apply lookup_insert_Some in Hr as [[<- <-]|[_ Hr]].
    + cbn. split; [lia|]. intros n _. lia.
    + by rewrite lookup_empty in Hr.
Defined.

Lemma Sample_world_monotone : monotone_clock Sample.world.
Proof. intros m n Hmn. cbn. lia. Defined.

Lemma calls_keep_well_stamped_witness :
  monotone_clock Sample.world
  /\ well_stamped Sample.world
  /\ well_stamped
       (calls Sample.world
          [CallCreateTodo {| create_Title := "Buy bread";
                             create_Description := "" |};
           CallUpdateTodo {| update_ID := 1%N; update_Title := "Buy oat milk";
                             update_Description := "" |};
           CallToggleTodo 2%N;
           CallDeleteTodo 1%N]).
Proof.
  split; [exact Sample_world_monotone|].
  split; [exact Sample_world_well_stamped|].
  apply (calls_keep_well_stamped _ Sample.world
           Sample_world_monotone Sample_world_well_stamped).
Defined.

(** X13. No sequence of service calls marks a todo completed: a row that
    is stored with completed = true after the calls was stored under the
    same id with completed = true before them. *)
Theorem calls_never_complete (cs : list Call) (s : World) (id : UUID) (r' : Row) :
  todos (db (calls s cs)) !! id = Some r' ->
  completed r' = true ->
  exists r : Row, todos (db s) !! id = Some r /\ completed r = true.
Proof.
  revert s. induction cs as [|c cs IH]; intros s Hr' Hc.
  - by exists r'.
  - destruct (IH (call s c) Hr' Hc) as (r1 & Hr1 & Hc1).
    destruct (call_frame s c) as (_ & _ & Hrows).
    destruct (Hrows id r1 Hr1) as [(r & Hr & Hcr & _)|(Hf & _)].
    + exists r. split; [done|]. congruence.
    + congruence.
Qed.

Lemma calls_never_complete_witness :
  let cs := [CallToggleTodo 1%N;
             CallUpdateTodo {| update_ID := 2%N; update_Title := "File taxes";
                               update_Description := "" |}] in
  let r' := {| title := "File taxes"; description := ""; completed := true;
               created_at := 2000; updated_at := 3000 |} in
  todos (db (calls Sample.world cs)) !! 2%N = Some r'
  /\ completed r' = true
  /\ exists r : Row,
       todos (db Sample.world) !! 2%N = Some r /\ completed r = true.
Proof.
  cbv zeta. split; [reflexivity|]. split; [reflexivity|].
  apply (calls_never_complete
           [CallToggleTodo 1%N;
            CallUpdateTodo {| update_ID := 2%N; update_Title := "File taxes";
                              update_Description := "" |}]
           Sample.world 2%N
           {| title := "File taxes"; description := ""; completed := true;
              created_at := 2000; updated_at := 3000 |});
    reflexivity.
Defined.

(** * Further properties of the commands *)

(** ** list *)

Lemma list_loop_all_out (todos filteredTodos : list Todo) :
  (list_loop false false todos filteredTodos).2
  = (fun n : nat => printTodoTable (filteredTodos ++ take n todos)%list)
    <$> seq 1 (length todos).
Proof.
  revert filteredTodos.
  induction todos as [|todo rest IH]; intros filteredTodos; cbn [list_loop].
  - done.
  - cbn [andb negb]. specialize (IH (filteredTodos ++ [todo])%list).
    destruct (list_loop false false rest _) as [kept out]. cbn [snd] in *.
    subst out. cbn [length seq fmap list_fmap]. f_equal.
    rewrite <- (fmap_S_seq 1), <- list_fmap_compose. apply list_fmap_ext.
    intros i n _. cbn. by rewrite <- app_assoc.
Qed.

(** X14. The list command without flags, on a reachable database, prints
    one table per stored todo, not one table in all: the n-th table shows
    the first n todos of the sequence FindAllTodos returned.  With no todo
    stored it prints the line "No TODOs found" and no table.  The state is
    left as it was. *)
Theorem list_prints_one_table_per_todo (w : World) :
  alive (db w) = true ->
  exists l : list Todo,
    todoServiceImpl.FindAllTodos w = (w, Ok l)
    /\ Execute findAllCommand [] [] w
       = (w,
          ((if decide (length l = 0%nat) then [Print "No TODOs found"] else [])
           ++ ((fun n : nat => printTodoTable (take n l)) <$> seq 1 (length l)))
          %list,
          None).
Proof.
  intros Ha. exists (Sql.select_all (todos (db w))).
  assert (todoServiceImpl.FindAllTodos w
          = (w, Ok (Sql.select_all (todos (db w))))) as Hfind.
  { unfold todoServiceImpl.FindAllTodos. by rewrite (FindAll_alive _ Ha). }
  split; [exact Hfind|].
  unfold Execute. cbn. rewrite Ha. cbn.
  unfold todoServiceImpl.FindAllTodos. rewrite (FindAll_alive _ Ha).
  change (list_filters Cobra.empty_flags) with (false, false). cbv iota beta.
  pose proof (list_loop_all_out (Sql.select_all (todos (db w))) []) as Hout.
  destruct (list_loop false false _ []) as [kept out]. cbn [snd] in Hout.
  by rewrite Hout.
Qed.

Lemma list_prints_one_table_per_todo_witness :
  alive (db Sample.world) = true
  /\ Execute findAllCommand [] [] Sample.world
     = (Sample.world,
        [printTodoTable [Sql.scan (2%N, Sample.taxes)];
         printTodoTable [Sql.scan (2%N, Sample.taxes);
                         Sql.scan (1%N, Sample.milk)]],
        None).
Proof.
  split; [reflexivity|].
  destruct (list_prints_one_table_per_todo Sample.world eq_refl)
    as (l & Hfind & Hrun).
  rewrite Hrun.
  assert (l = [Sql.scan (2%N, Sample.taxes); Sql.scan (1%N, Sample.milk)])
    as ->; [|reflexivity].
  assert ((Sample.world, Ok l)
          = (Sample.world,
             Ok [Sql.scan (2%N, Sample.taxes); Sql.scan (1%N, Sample.milk)]))
    as Heq by (rewrite <- Hfind; reflexivity).
  by injection Heq.
Defined.

(** ** create *)



(** ** find, update, delete and toggle *)

Lemma update_request_ID (flags : gmap string Cobra.Value) (id : UUID) :
  update_ID (update_request flags id) = id.
Proof.
  unfold update_request.
  destruct (Cobra.GetString flags "title") as [t e1].
  by destruct (Cobra.GetString flags "description") as [d e2].
Qed.

(** X16. An identifier that uuid.Parse rejects stops find, update, delete
    and toggle before any service call: each prints the one line "Error
    parsing id" with the parser's error, returns no error to the
    framework, and leaves the state as it was. *)
Theorem malformed_id_stops_the_command
    (uuid_Parse : string -> result UUID) (w : World) (arg : string)
    (e : error) :
  uuid_Parse arg = Err e ->
  alive (db w) = true ->
  Execute (findByIDCommand uuid_Parse) [] [arg] w
  = (w, [PrintErr "Error parsing id" e], None)
  /\ Execute (updateCommand uuid_Parse) [] [arg] w
     = (w, [PrintErr "Error parsing id" e], None)
  /\ Execute (deleteCommand uuid_Parse) [] [arg] w
     = (w, [PrintErr "Error parsing id" e], None)
  /\ Execute (toggleCommand uuid_Parse) [] [arg] w
     = (w, [PrintErr "Error parsing id" e], None).
Proof.
  intros Hparse Ha. unfold Execute. cbn. rewrite Ha, Hparse. done.
Qed.

Lemma malformed_id_stops_the_command_witness :
  Sample.uuid_Parse "not-a-uuid" = Err (ErrInvalidUUID "not-a-uuid")
  /\ alive (db Sample.world) = true
  /\ Execute (deleteCommand Sample.uuid_Parse) [] ["not-a-uuid"] Sample.world
     = (Sample.world,
        [PrintErr "Error parsing id" (ErrInvalidUUID "not-a-uuid")], None).
Proof.
  split; [reflexivity|]. split; [reflexivity|].
  apply (malformed_id_stops_the_command Sample.uuid_Parse Sample.world
           "not-a-uuid" (ErrInvalidUUID "not-a-uuid") eq_refl eq_refl).
Defined.

(** X17. For a well-formed identifier that is not stored, on a reachable
    database, find, update and toggle each print their error line with the
    NotFound error and leave the state as it was. *)
Theorem id_not_stored_is_reported
    (uuid_Parse : string -> result UUID) (w : World) (arg : string)
    (id : UUID) :
  uuid_Parse arg = Ok id ->
  alive (db w) = true ->
  todos (db w) !! id = None ->
  Execute (findByIDCommand uuid_Parse) [] [arg] w
  = (w, [PrintErr "Error getting TODO" NotFound], None)
  /\ Execute (updateCommand uuid_Parse) [] [arg] w
     = (w, [PrintErr "Error trying to update TOD item" NotFound], None)
  /\ Execute (toggleCommand uuid_Parse) [] [arg] w
     = (w, [PrintErr "Error toggling TODO" NotFound], None).
Proof.
  intros Hparse Ha Hr. unfold Execute. cbn. rewrite Ha, Hparse.
  unfold todoServiceImpl.FindTodoByID, todoServiceImpl.UpdateTodo,
    todoServiceImpl.ToggleTodo. cbn.
  by rewrite update_request_ID, (FindByID_missing _ Ha _ Hr).
Qed.

Lemma id_not_stored_is_reported_witness :
  let parse := fun s : string =>
    if decide (s = "00000000-0000-0000-0000-000000000009")
    then Ok 9%N else Sample.uuid_Parse s in
  parse "00000000-0000-0000-0000-000000000009" = Ok 9%N
  /\ alive (db Sample.world) = true
  /\ todos (db Sample.world) !! 9%N = None
  /\ Execute (toggleCommand parse) []
       ["00000000-0000-0000-0000-000000000009"] Sample.world
     = (Sample.world, [PrintErr "Error toggling TODO" NotFound], None).
Proof.
  cbv zeta. split; [reflexivity|]. split; [reflexivity|].
  split; [reflexivity|].
  apply (id_not_stored_is_reported
           (fun s : string =>
              if decide (s = "00000000-0000-0000-0000-000000000009")
              then Ok 9%N else Sample.uuid_Parse s)
           Sample.world "00000000-0000-0000-0000-000000000009" 9%N);
    reflexivity.
Defined.

(** X18. The delete command on a well-formed identifier that is not
    stored, on a reachable database, prints "Todo deleted successfully!"
    and leaves the state as it was: DeleteTodo hands back the nil error of
    the gateway. *)
Theorem delete_id_not_stored_prints_success
    (uuid_Parse : string -> result UUID) (w : World) (arg : string)
    (id : UUID) :
  uuid_Parse arg = Ok id ->
  alive (db w) = true ->
  todos (db w) !! id = None ->
  todoServiceImpl.DeleteTodo w id = (w, None)
  /\ Execute (deleteCommand uuid_Parse) [] [arg] w
     = (w, [Print "Todo deleted successfully!"], None).
Proof.
  intros Hparse Ha Hr.
  assert (todoServiceImpl.DeleteTodo w id = (w, None)) as Hdel.
  { unfold todoServiceImpl.DeleteTodo.
    by rewrite (Delete_missing _ Ha _ Hr), set_db_same. }
  split; [exact Hdel|].
  unfold Execute. cbn. rewrite Ha, Hparse. by rewrite Hdel.
Qed.

Lemma delete_id_not_stored_prints_success_witness :
  let parse := fun s : string =>
    if decide (s = "00000000-0000-0000-0000-000000000009")
    then Ok 9%N else Sample.uuid_Parse s in
  parse "00000000-0000-0000-0000-000000000009" = Ok 9%N
  /\ alive (db Sample.world) = true
  /\ todos (db Sample.world) !! 9%N = None
  /\ Execute (deleteCommand parse) []
       ["00000000-0000-0000-0000-000000000009"] Sample.world
     = (Sample.world, [Print "Todo deleted successfully!"], None).
Proof.
  cbv zeta. split; [reflexivity|]. split; [reflexivity|].
  split; [reflexivity|].
  apply (delete_id_not_stored_prints_success
           (fun s : string =>
              if decide (s = "00000000-0000-0000-0000-000000000009")
              then Ok 9%N else Sample.uuid_Parse s)
           Sample.world "00000000-0000-0000-0000-000000000009" 9%N);
    reflexivity.
Defined.

(** X19. find, create, update, delete and toggle take exactly one
    argument: with any other number of arguments the command is rejected
    before its Run function is called, nothing is printed and the state is
    left as it was. *)
Theorem one_argument_or_rejected
    (uuid_Parse : string -> result UUID) (w : World) (args : list string) :
  length args <> 1%nat ->
  Execute (findByIDCommand uuid_Parse) [] args w
  = (w, [], Some (ErrArgs 1 (length args)))
  /\ Execute createCommand [] args w
     = (w, [], Some (ErrArgs 1 (length args)))
  /\ Execute (updateCommand uuid_Parse) [] args w
     = (w, [], Some (ErrArgs 1 (length args)))
  /\ Execute (deleteCommand uuid_Parse) [] args w
     = (w, [], Some (ErrArgs 1 (length args)))
  /\ Execute (toggleCommand uuid_Parse) [] args w
     = (w, [], Some (ErrArgs 1 (length args))).
Proof.
  intros Hlen.
  assert (Cobra.ExactArgs 1 args = Some (ErrArgs 1 (length args))) as Hargs
    by (unfold Cobra.ExactArgs; by rewrite decide_False).
  unfold Execute. cbn -[Cobra.ExactArgs]. by rewrite Hargs.
Qed.

Lemma one_argument_or_rejected_witness :
  length (@nil string) <> 1%nat
  /\ Execute (toggleCommand Sample.uuid_Parse) [] [] Sample.world
     = (Sample.world, [], Some (ErrArgs 1 0)).
Proof.
  split; [discriminate|].
  apply (one_argument_or_rejected Sample.uuid_Parse Sample.world []).
  discriminate.
Defined.

(** ** truncate *)

Lemma String_length_append (s1 s2 : string) :
  String.length (s1 ++ s2) = (String.length s1 + String.length s2)%nat.
Proof. induction s1 as [|c s1 IH]; simpl; [done | by f_equal]. Qed.

Lemma String_length_substring_0 (s : string) :
  forall k : nat,
    (k <= String.length s)%nat ->
    String.length (String.substring 0 k s) = k.
Proof.
  induction s as [|c s IH]; intros [|k] Hk; cbn in *; try done; try lia.
  rewrite IH; [done | lia].
Qed.

Lemma truncate_cut (s : string) (n : Z) :
  3 <= n ->
  n < Z.of_nat (String.length s) ->
  truncate s n = Some (String.substring 0 (Z.to_nat (n - 3)) s ++ "...")
  /\ Z.of_nat (String.length
                 (String.substring 0 (Z.to_nat (n - 3)) s ++ "...")) = n.
Proof.
  intros Hn Hlong. unfold truncate.
  destruct (Z.leb_spec (Z.of_nat (String.length s)) n) as [?|_]; [lia|].
  cbv zeta.
  destruct (Z.ltb_spec (n - 3) 0) as [?|_]; [lia|].
  destruct (Z.ltb_spec (Z.of_nat (String.length s)) (n - 3)) as [?|_]; [lia|].
  split; [done|].
  rewrite String_length_append, String_length_substring_0 by lia.
  cbn. lia.
Qed.

(** X20. For a width of at least 3, truncate never panics and its result
    never exceeds the width: a string that fits is returned as it is, and
    a longer one is cut to its first width - 3 bytes followed by three
    dots, which is exactly width bytes. *)
Theorem truncate_fits (s : string) (n : Z) :
  3 <= n ->
  exists r : string,
    truncate s n = Some r
    /\ Z.of_nat (String.length r) <= n
    /\ (Z.of_nat (String.length s) <= n -> r = s)
    /\ (n < Z.of_nat (String.length s) ->
        r = String.substring 0 (Z.to_nat (n - 3)) s ++ "..."
        /\ Z.of_nat (String.length r) = n).
Proof.
  intros Hn.
  destruct (Z.leb_spec (Z.of_nat (String.length s)) n) as [Hfit|Hlong].
  - exists s. unfold truncate.
    destruct (Z.leb_spec (Z.of_nat (String.length s)) n) as [_|?]; [|lia].
    split_and!; [done | done | done | lia].
  - destruct (truncate_cut s n Hn Hlong) as [Hrun Hlen].
    eexists. split; [exact Hrun|]. split_and!; [lia | lia | done].
Qed.

Lemma truncate_fits_witness :
  3 <= 20
  /\ exists r : string,
       truncate "Write the quarterly report for finance" 20 = Some r
       /\ r = "Write the quarter..."
       /\ Z.of_nat (String.length r) <= 20.
Proof.
  split; [lia|].
  destruct (truncate_fits "Write the quarterly report for finance" 20)
    as (r & Hrun & Hle & _ & Hcut); [lia|].
  exists r. split; [exact Hrun|]. split; [|exact Hle].
  destruct Hcut as [-> _]; reflexivity.
Defined.

(** X21. For a width below 3, truncate panics on every string longer than
    the width: the slice bound width - 3 is negative. *)
Theorem truncate_narrow_width_panics (s : string) (n : Z) :
  n < 3 ->
  n < Z.of_nat (String.length s) ->
  truncate s n = None.
Proof.
  intros Hn Hlong. unfold truncate.
  destruct (Z.leb_spec (Z.of_nat (String.length s)) n) as [?|_]; [lia|].
  cbv zeta.
  destruct (Z.ltb_spec (n - 3) 0) as [_|?]; [done | lia].
Qed.

Lemma truncate_narrow_width_panics_witness :
  2 < 3
  /\ 2 < Z.of_nat (String.length "abc")
  /\ truncate "abc" 2 = None.
Proof.
  split; [lia|]. split; [cbn; lia|].
  apply (truncate_narrow_width_panics "abc" 2); [lia | cbn; lia].
Defined.

(** X22. truncate is idempotent: a result of truncate is returned
    unchanged when truncated again to the same width. *)
Theorem truncate_twice (s r : string) (n : Z) :
  truncate s n = Some r ->
  truncate r n = Some r.
Proof.
  intros Hrun.
  assert (Z.of_nat (String.length r) <= n) as Hfit.
  { destruct (Z.leb_spec (Z.of_nat (String.length s)) n) as [Hle|Hlong].
    - unfold truncate in Hrun.
      destruct (Z.leb_spec (Z.of_nat (String.length s)) n) as [_|?]; [|lia].
      by injection Hrun as <-.
    - destruct (Z.ltb_spec n 3) as [Hn|Hn].
      + by rewrite (truncate_narrow_width_panics s n Hn Hlong) in Hrun.
      + destruct (truncate_cut s n Hn Hlong) as [Hcut Hlen].
        rewrite Hcut in Hrun. injection Hrun as <-. lia. }
  unfold truncate.
  by destruct (Z.leb_spec (Z.of_nat (String.length r)) n) as [_|?]; [|lia].
Qed.

Lemma truncate_twice_witness :
  truncate "Write the quarterly report for finance" 20
  = Some "Write the quarter..."
  /\ truncate "Write the quarter..." 20 = Some "Write the quarter...".
Proof.
  split; [reflexivity|].
  apply (truncate_twice "Write the quarterly report for finance"
           "Write the quarter..." 20).
  reflexivity.
Defined.

(** * Properties of the configuration *)

Lemma getEnv_nonempty (env : gmap string string) (key defaultValue : string) :
  defaultValue <> "" -> getEnv env key defaultValue <> "".
Proof. intros Hd. unfold getEnv. by case_decide. Qed.

(** X23. getEnv does not tell a variable set to the empty string from a
    variable that is not set: both give the default; and it never returns
    the empty string when the default is not empty. *)
Theorem getEnv_empty_is_unset
    (env : gmap string string) (key defaultValue : string) :
  getEnv (<[key := ""]> env) key defaultValue = defaultValue
  /\ getEnv (delete key env) key defaultValue = defaultValue
  /\ (forall value : string,
        value <> "" ->
        getEnv (<[key := value]> env) key defaultValue = value)
  /\ (defaultValue <> "" -> getEnv env key defaultValue <> "").
Proof.
  unfold getEnv, os_Getenv. split_and!.
  - by rewrite lookup_insert_eq.
  - by rewrite lookup_delete_eq.
  - intros value Hv. rewrite lookup_insert_eq. cbn. by rewrite decide_False.
  - intros Hd. by case_decide.
Qed.

(** X24. Whatever the environment holds, LoadConfig yields a
    configuration none of whose six fields is empty. *)
Theorem LoadConfig_no_empty_field (env : gmap string string) :
  PostgresHost (LoadConfig env) <> ""
  /\ PostgresPort (LoadConfig env) <> ""
  /\ PostgresUser (LoadConfig env) <> ""
  /\ PostgresPassword (LoadConfig env) <> ""
  /\ PostgresDB (LoadConfig env) <> ""
  /\ PostgresSSLMode (LoadConfig env) <> "".
Proof. split_and!; by apply getEnv_nonempty. Qed.

(** X25. When none of the six POSTGRES_ variables is set to a non-empty
    value, whatever else the environment holds, the connection string is
    the one of the defaults. *)
Theorem GetPostgresDSN_defaults (env : gmap string string) :
  Forall (fun key : string => os_Getenv env key = "")
    ["POSTGRES_HOST"; "POSTGRES_PORT"; "POSTGRES_USER"; "POSTGRES_PASSWORD";
     "POSTGRES_DB"; "POSTGRES_SSL_MODE"] ->
  GetPostgresDSN (LoadConfig env)
  = "host=localhost port=5432 user=todo_user password=todo_password dbname=todo_db sslmode=disable".
Proof.
  intros Hunset. repeat (apply Forall_cons in Hunset as [? Hunset]).
  unfold GetPostgresDSN, LoadConfig, getEnv. cbn [PostgresHost PostgresPort
    PostgresUser PostgresPassword PostgresDB PostgresSSLMode].
  repeat match goal with H : os_Getenv _ _ = "" |- _ => rewrite H; clear H end.
  reflexivity.
Qed.

Lemma GetPostgresDSN_defaults_witness :
  let env : gmap string string :=
    <["POSTGRES_HOST" := ""]> (<["HOME" := "/root"]> ∅) in
  Forall (fun key : string => os_Getenv env key = "")
    ["POSTGRES_HOST"; "POSTGRES_PORT"; "POSTGRES_USER"; "POSTGRES_PASSWORD";
     "POSTGRES_DB"; "POSTGRES_SSL_MODE"]
  /\ GetPostgresDSN (LoadConfig env)
     = "host=localhost port=5432 user=todo_user password=todo_password dbname=todo_db sslmode=disable".
Proof.
  cbv zeta.
  assert (Forall (fun key : string =>
                    os_Getenv (<["POSTGRES_HOST" := ""]>
                                 (<["HOME" := "/root"]> ∅)) key = "")
            ["POSTGRES_HOST"; "POSTGRES_PORT"; "POSTGRES_USER";
             "POSTGRES_PASSWORD"; "POSTGRES_DB"; "POSTGRES_SSL_MODE"]) as H
    by (repeat constructor).
  split; [exact H|].
  exact (GetPostgresDSN_defaults _ H).
Defined.

(** * UpdateTodo read back *)


